(** * Arbitrage trader: the position state machine and its store

    A shallow embedding of [src/db.py] and [src/stock_trader.py].

    - Python floats are Rocq's primitive binary64 floats, so [+], [-], [*]
      and the comparisons are the IEEE operations Python uses; true division
      raises [ZeroDivisionError] on a zero divisor, as in Python.  The
      amounts and prices of a position are floats (the REAL columns, the
      quotes, the configured amounts); the integer literal 0 that
      initialises them is taken at its float value.  Counters and ids are
      integers.
    - A method call mutates [self], the SQLite store and the outside world in
      place.  Methods are therefore computations in a state-and-exception
      monad over a [Machine] holding the bound object, the store, and the
      requests sent to the gateway.  When a method raises, the machine is the
      one the exception leaves behind (the fields assigned before the
      failing statement stay assigned).
    - The gateway (quotes, order submission, market hours, clock) is not part
      of the repository: it is a record of oracles, each indexed by the
      number of external readings made so far, so that two successive quote
      lookups may return different prices.
    - The [positions] table holds what SQLite keeps of the values bound to
      it: NULL for a NaN, 0.0 for either zero, and no integer beyond 64
      bits, which [sqlite3] refuses with an [OverflowError].  An attribute
      of a trader is a float: the [None] that a NULL column loads is held
      as NaN.
    - [stock_trader.py] imports [get_last_trade] from [db], which [db.py]
      does not define, and calls [record_trade] with six values where
      [db.py] takes five.  The first is modelled from the spec; the second
      is modelled as Python runs it, a [TypeError] at the call. *)

From Stdlib Require Import ZArith Bool List String Floats.
From stdpp Require Import gmap strings list.
Import ListNotations.

Local Open Scope Z_scope.

(** ** Python values and exceptions *)

Inductive exn : Type :=
| ZeroDivisionError
| TypeError
| IndexError
| IntegrityError
| OverflowError.

Inductive pyval : Type :=
| PyInt (z : Z)
| PyFloat (x : float)
| PyStr (s : string).

(** [float(z)]: the float nearest to the integer, ties to even.  It is
    infinite where Python raises [OverflowError], the integer being too
    large for a float. *)
Definition float_of_Z (z : Z) : float :=
  SF2Prim (binary_normalize prec emax z 0 false).

(** An integer as the binary number it is, of whatever size. *)
Definition exact (z : Z) : spec_float :=
  match z with
  | Z0 => S754_zero false
  | Zpos p => S754_finite false p 0
  | Zneg p => S754_finite true p 0
  end.

Definition is_infinite (x : float) : bool :=
  PrimFloat.eqb (PrimFloat.abs x) infinity.

(** Python's [x == 0] on a float (true on both signed zeros, false on NaN). *)
Definition is_zero (x : float) : bool := PrimFloat.eqb x 0%float.

(** Python's [a >= b] on floats. *)
Definition float_ge (a b : float) : bool := PrimFloat.leb b a.

(** [math.isnan(x)]: NaN is the one float that differs from itself. *)
Definition is_nan (x : float) : bool := negb (PrimFloat.eqb x x).

(** Python's [v == s] for a string [s]. *)
Definition is_str (s : string) (v : pyval) : bool :=
  match v with
  | PyStr s' => String.eqb s' s
  | _ => false
  end.

(** ** The state-and-exception monad *)

Inductive res (A : Type) : Type :=
| Ok (a : A)
| Raise (e : exn).
Arguments Ok {A} a.
Arguments Raise {A} e.

Definition M (S A : Type) : Type := S -> res A * S.

Definition ret {S A : Type} (a : A) : M S A := fun s => (Ok a, s).

Definition raise {S A : Type} (e : exn) : M S A := fun s => (Raise e, s).

Definition bind {S A B : Type} (m : M S A) (k : A -> M S B) : M S B :=
  fun s =>
    match m s with
    | (Ok a, s') => k a s'
    | (Raise e, s') => (Raise e, s')
    end.

Definition get {S : Type} : M S S := fun s => (Ok s, s).

Definition modify {S : Type} (f : S -> S) : M S unit := fun s => (Ok tt, f s).

Declare Scope py_scope.
Delimit Scope py_scope with py.
Notation "x <- m ;; k" := (bind m (fun x => k))
  (at level 100, m at next level, right associativity) : py_scope.
Notation "m ;;; k" := (bind m (fun _ => k))
  (at level 100, right associativity) : py_scope.

(** A computation that reads and writes no state. *)
Definition lift {S A : Type} (r : res A) : M S A := fun s => (r, s).

Definition and_then {A B : Type} (r : res A) (k : A -> res B) : res B :=
  match r with
  | Ok a => k a
  | Raise e => Raise e
  end.

(** Python's [a / b] on floats. *)
Definition div (a b : float) : res float :=
  if is_zero b then Raise ZeroDivisionError else Ok (PrimFloat.div a b).

Definition truediv {S : Type} (a b : float) : M S float := lift (div a b).

(** An integer operand of a float division is made a float first. *)
Definition as_float (z : Z) (k : float -> res float) : res float :=
  if is_infinite (float_of_Z z) then Raise OverflowError
  else k (float_of_Z z).

(** Python's [a / b] on two values read back from a row.  The quotient of
    two integers is the float nearest to the exact quotient. *)
Definition py_div (a b : pyval) : res float :=
  match a, b with
  | PyFloat x, PyFloat y => div x y
  | PyFloat x, PyInt z => as_float z (fun y => div x y)
  | PyInt z, PyFloat y => as_float z (fun x => div x y)
  | PyInt z, PyInt w =>
      if w =? 0 then Raise ZeroDivisionError
      else
        let q := SF2Prim (SFdiv prec emax (exact z) (exact w)) in
        if is_infinite q then Raise OverflowError else Ok q
  | _, _ => Raise TypeError
  end.

(** ** Data model *)

(** Modelled from the spec: [constant.PositionStatus] is imported by both
    source files but the module [constant] is not among them; the spec gives
    the three states of a position. *)
Inductive PositionStatus : Type :=
| TRADABLE
| PENDING_BUY
| PENDING_SELL.

Definition status_eqb (a b : PositionStatus) : bool :=
  match a, b with
  | TRADABLE, TRADABLE | PENDING_BUY, PENDING_BUY
  | PENDING_SELL, PENDING_SELL => true
  | _, _ => false
  end.

(** The attributes [StockTrader.__init__] gives an instance
    ([logger] is left out: logging has no effect on the state). *)
Record StockTrader : Type := mkTrader {
  stock : string;
  volume : float;
  buy_count : Z;
  last_buy_price : float;
  total_cost : float;
  avg_price : float;
  current_price : float;
  profit : float;
  position_status : PositionStatus;
  last_updated : Z;
  wallet_id : Z
}.

Definition set_volume (x : float) (t : StockTrader) : StockTrader :=
  mkTrader (stock t) x (buy_count t) (last_buy_price t) (total_cost t)
    (avg_price t) (current_price t) (profit t) (position_status t)
    (last_updated t) (wallet_id t).
Definition set_buy_count (n : Z) (t : StockTrader) : StockTrader :=
  mkTrader (stock t) (volume t) n (last_buy_price t) (total_cost t)
    (avg_price t) (current_price t) (profit t) (position_status t)
    (last_updated t) (wallet_id t).
Definition set_last_buy_price (x : float) (t : StockTrader) : StockTrader :=
  mkTrader (stock t) (volume t) (buy_count t) x (total_cost t)
    (avg_price t) (current_price t) (profit t) (position_status t)
    (last_updated t) (wallet_id t).
Definition set_total_cost (x : float) (t : StockTrader) : StockTrader :=
  mkTrader (stock t) (volume t) (buy_count t) (last_buy_price t) x
    (avg_price t) (current_price t) (profit t) (position_status t)
    (last_updated t) (wallet_id t).
Definition set_avg_price (x : float) (t : StockTrader) : StockTrader :=
  mkTrader (stock t) (volume t) (buy_count t) (last_buy_price t)
    (total_cost t) x (current_price t) (profit t) (position_status t)
    (last_updated t) (wallet_id t).
Definition set_current_price (x : float) (t : StockTrader) : StockTrader :=
  mkTrader (stock t) (volume t) (buy_count t) (last_buy_price t)
    (total_cost t) (avg_price t) x (profit t) (position_status t)
    (last_updated t) (wallet_id t).
Definition set_profit (x : float) (t : StockTrader) : StockTrader :=
  mkTrader (stock t) (volume t) (buy_count t) (last_buy_price t)
    (total_cost t) (avg_price t) (current_price t) x (position_status t)
    (last_updated t) (wallet_id t).
Definition set_position_status (x : PositionStatus) (t : StockTrader)
  : StockTrader :=
  mkTrader (stock t) (volume t) (buy_count t) (last_buy_price t)
    (total_cost t) (avg_price t) (current_price t) (profit t) x
    (last_updated t) (wallet_id t).
Definition set_last_updated (x : Z) (t : StockTrader) : StockTrader :=
  mkTrader (stock t) (volume t) (buy_count t) (last_buy_price t)
    (total_cost t) (avg_price t) (current_price t) (profit t)
    (position_status t) x (wallet_id t).
Definition set_wallet_id (x : Z) (t : StockTrader) : StockTrader :=
  mkTrader (stock t) (volume t) (buy_count t) (last_buy_price t)
    (total_cost t) (avg_price t) (current_price t) (profit t)
    (position_status t) (last_updated t) x.

(** A row of the [trades] table of [db.py]: the id, the five values
    [record_trade] binds, in the order of its parameters and of the
    [CREATE TABLE] statement, and the time. *)
Record TradeRow : Type := mkTrade {
  tr_id : Z;
  tr_stock : pyval;
  tr_action : pyval;
  tr_price : pyval;
  tr_volume : pyval;
  tr_profit : pyval;
  tr_timestamp : Z
}.

(** [row[i]] on a trade read back as a tuple: the id, then the values in
    the order in which they were given to [record_trade], then the time.
    This is the order of the spec's trade record (symbol, action, fill
    price, filled quantity, funding amount, ...); the fifth value, at
    index 5, is the one [db.py] names [profit]. *)
Definition trade_item (r : TradeRow) (i : nat) : option pyval :=
  match i with
  | 0%nat => Some (PyInt (tr_id r))
  | 1%nat => Some (tr_stock r)
  | 2%nat => Some (tr_action r)
  | 3%nat => Some (tr_price r)
  | 4%nat => Some (tr_volume r)
  | 5%nat => Some (tr_profit r)
  | 6%nat => Some (PyInt (tr_timestamp r))
  | _ => None
  end.

(** A row of the [positions] table, keyed by [stock], as [fetchone]
    returns it: a REAL column holds a float or NULL, which Python reads as
    [None]. *)
Record PositionRow : Type := mkPosition {
  p_volume : option float;
  p_buy_count : Z;
  p_last_buy_price : option float;
  p_total_cost : option float;
  p_avg_price : option float;
  p_current_price : option float;
  p_profit : option float;
  p_status : PositionStatus;
  p_last_updated : Z
}.

(** What SQLite keeps of a float bound to a REAL column: NULL for NaN;
    for a float without a fraction the integer it equals, read back as a
    float, so that the negative zero comes back as 0.0; the float itself
    otherwise. *)
Definition sql_real (x : float) : option float :=
  if is_nan x then None
  else if is_zero x then Some 0%float
  else Some x.

(** The integers SQLite stores, those of 64 bits; [sqlite3] raises
    [OverflowError] when it is to bind any other. *)
Definition int64 (z : Z) : bool :=
  (- 2 ^ 63 <=? z) && (z <? 2 ^ 63).

(** The statements the store has committed, oldest first. *)
Inductive Stmt : Type :=
| InsertOrReplacePosition (key : string)
| InsertPosition (key : string)
| InsertTrade (id : Z).

(** [pools.STOCKS] is not among the source files.  An address is named by
    the lookup that yields it, [STOCKS[stock]["buy_addr"]] or
    [STOCKS[stock]["sell_addr"]], so that the order log tells the buy
    orders from the sell orders. *)
Inductive AddrKey : Type :=
| buy_addr
| sell_addr.

Definition Address : Type := (string * AddrKey)%type.

Definition STOCKS (s : string) (k : AddrKey) : Address := (s, k).

(** One call of [send_asset(address, wallet_id, request, offer, logger)]. *)
Record Order : Type := mkOrder {
  o_address : Address;
  o_wallet_id : Z;
  o_request : float;
  o_offer : float;
  o_accepted : bool
}.

Record Machine : Type := mkMachine {
  self : StockTrader;
  trades : list TradeRow;
  trades_seq : Z;
  positions : gmap string PositionRow;
  journal : list Stmt;
  orders : list Order;
  readings : nat
}.

Definition with_self (t : StockTrader) (m : Machine) : Machine :=
  mkMachine t (trades m) (trades_seq m) (positions m) (journal m)
    (orders m) (readings m).
Definition with_readings (n : nat) (m : Machine) : Machine :=
  mkMachine (self m) (trades m) (trades_seq m) (positions m) (journal m)
    (orders m) n.
Definition with_orders (l : list Order) (m : Machine) : Machine :=
  mkMachine (self m) (trades m) (trades_seq m) (positions m) (journal m)
    l (readings m).

Abbreviation Py := (M Machine).

Local Open Scope py_scope.

Definition get_self : Py StockTrader := fun m => (Ok (self m), m).

Definition modify_self (f : StockTrader -> StockTrader) : Py unit :=
  modify (fun m => with_self (f (self m)) m).

(** ** The gateway: quotes, orders, market hours and the clock

    [chia], [stock] and [datetime] are outside the repository.  Each oracle
    takes the number of readings made so far; every call consumes one. *)

Record Gateway : Type := mkGateway {
  get_stock_price_from_dinari : nat -> string -> float * float;
  send_asset : nat -> Address -> Z -> float -> float -> bool;
  is_market_open : nat -> bool;
  get_xch_price : nat -> option float;
  add_token : nat -> string -> Z;
  datetime_now : nat -> Z
}.

Definition reading {A : Type} (f : nat -> A) : Py A :=
  fun m => (Ok (f (readings m)), with_readings (S (readings m)) m).

Definition submit (gw : Gateway) (a : Address) (w : Z) (request offer : float)
  : Py bool :=
  fun m =>
    let ok := send_asset gw (readings m) a w request offer in
    (Ok ok,
     with_orders (orders m ++ [mkOrder a w request offer ok])
       (with_readings (S (readings m)) m)).

(** ** db.py *)

Module db.
Section WithGateway.

Variable gw : Gateway.

(** The row the table holds once [update_position] or [create_position]
    has bound the attributes of [t] to the statement's parameters, [stamp]
    being the last one. *)
Definition position_row (t : StockTrader) (stamp : Z) : PositionRow :=
  mkPosition (sql_real (volume t)) (buy_count t)
    (sql_real (last_buy_price t)) (sql_real (total_cost t))
    (sql_real (avg_price t)) (sql_real (current_price t))
    (sql_real (profit t)) (position_status t) stamp.

(** [INSERT OR REPLACE INTO positions], stamped with [datetime.now()],
    which is read before the statement runs.  Binding a [buy_count] that
    does not fit 64 bits raises [OverflowError] and writes nothing. *)
Definition update_position (t : StockTrader) : Py unit :=
  now <- reading (datetime_now gw) ;;
  if int64 (buy_count t) then
    modify (fun m =>
      mkMachine (self m) (trades m) (trades_seq m)
        (<[stock t := position_row t now]> (positions m))
        (journal m ++ [InsertOrReplacePosition (stock t)])
        (orders m) (readings m))
  else raise OverflowError.

Definition get_position (s : string) : Py (option PositionRow) :=
  fun m => (Ok (positions m !! s), m).

(** A plain [INSERT]: the parameters are bound first, then the primary
    key rejects a second row for a stock. *)
Definition create_position (t : StockTrader) : Py unit :=
  if int64 (buy_count t) then
    m <- get ;;
    match positions m !! stock t with
    | Some _ => raise IntegrityError
    | None =>
        modify (fun m =>
          mkMachine (self m) (trades m) (trades_seq m)
            (<[stock t := position_row t (last_updated t)]> (positions m))
            (journal m ++ [InsertPosition (stock t)])
            (orders m) (readings m))
    end
  else raise OverflowError.

(** [def record_trade(stock, action, price, volume, profit)]: the call
    binds its positional arguments to the five parameters, and fails with
    a [TypeError] when their number is not five.  The row gets the next
    id and the store's current time.  It holds the values as they are
    bound: what SQLite makes of a value that is not of the type of its
    column is left out, no call of the program getting as far as the
    insertion. *)
Definition record_trade (args : list pyval) : Py unit :=
  match args with
  | [a_stock; a_action; a_price; a_volume; a_profit] =>
      now <- reading (datetime_now gw) ;;
      modify (fun m =>
        let id := trades_seq m + 1 in
        mkMachine (self m)
          (trades m ++
             [mkTrade id a_stock a_action a_price a_volume a_profit now])
          id (positions m)
          (journal m ++ [InsertTrade id])
          (orders m) (readings m))
  | _ => raise TypeError
  end.

(** Modelled from the spec: [get_last_trade] is imported from [db] by
    [stock_trader.py] but [db.py] does not define it.  The spec:
    "most recent ledger row for the symbol by insertion order", absent
    when the symbol has none.  The row comes back as [trade_item] reads
    it. *)
Definition get_last_trade (s : string) : Py (option TradeRow) :=
  fun m =>
    (Ok (last (List.filter (fun r => is_str s (tr_stock r)) (trades m))),
     m).

End WithGateway.
End db.

(** ** stock_trader.py *)

(** Modelled from the spec: [constant.CONFIG] is not among the source files;
    these are the keys [stock_trader.py] reads, the static options of the
    process.  [INVESTED_USD] is read only by the summary line. *)
Record Config : Type := mkConfig {
  SELL_ONLY_SYMBOLS : list string;
  TRADING_SYMBOLS : list string;
  MIN_PROFIT : float;
  MAX_BUY_TIMES : Z;
  MAX_LOSS_PERCENTAGE : float;
  DCA_PERCENTAGE : float;
  BUY_PERCENTAGE : float;
  INVESTED_XCH : float
}.

(** [datetime.strptime(s.split(".")[0], "%Y-%m-%d %H:%M:%S")]: the stored
    time without its fraction of a second (times are in microseconds). *)
Definition whole_seconds (t : Z) : Z := 1000000 * (t / 1000000).

Module stock_trader.
Section WithEnvironment.

Variable gw : Gateway.
Variable CONFIG : Config.

Definition now : Py Z := reading (datetime_now gw).

Definition quote (s : string) : Py (float * float) :=
  reading (fun n => get_stock_price_from_dinari gw n s).

(** The attribute a REAL column gives.  A NULL column gives [None], for
    which a float attribute has no value: it is held as NaN, so that what
    is proved of a position loaded from a row with a NULL in it is proved
    of that stand-in. *)
Definition loaded (x : option float) : float :=
  match x with
  | Some x => x
  | None => nan
  end.

Definition load_position : Py unit :=
  s <- get_self ;;
  result <- db.get_position (stock s) ;;
  match result with
  | Some r =>
      modify_self (fun t =>
        mkTrader (stock t) (loaded (p_volume r)) (p_buy_count r)
          (loaded (p_last_buy_price r)) (loaded (p_total_cost r))
          (loaded (p_avg_price r)) (loaded (p_current_price r))
          (loaded (p_profit r)) (p_status r)
          (whole_seconds (p_last_updated r)) (wallet_id t))
  | None =>
      s <- get_self ;;
      db.create_position s
  end.

(** [StockTrader(stock, logger)].  The object has no [wallet_id] until
    the last statement; the field holds 0 until then. *)
Definition __init__ (stock : string) : Py unit :=
  t <- now ;;
  modify (with_self
    (mkTrader stock 0%float 0 0%float 0%float 0%float 0%float 0%float
       TRADABLE t 0)) ;;;
  load_position ;;;
  w <- reading (fun n => add_token gw n stock) ;;
  modify_self (set_wallet_id w).

(** The six values line 63 hands to [record_trade] after a buy, and the
    six values lines 79 and 103 hand to it after a sale: the symbol, the
    action, the price, the quantity, the funding amount and the profit. *)
Definition purchase_values (s : StockTrader)
    (price volume_ xch_volume : float) : list pyval :=
  [PyStr (stock s); PyStr "BUY"; PyFloat price; PyFloat volume_;
   PyFloat xch_volume; PyInt 0].

Definition sale_values (s : StockTrader) : list pyval :=
  [PyStr (stock s); PyStr "SELL"; PyFloat (current_price s);
   PyFloat (volume s); PyFloat (total_cost s); PyFloat (profit s)].

Definition buy_stock (xch_volume xch_price : float) : Py unit :=
  s <- get_self ;;
  if existsb (String.eqb (stock s)) (SELL_ONLY_SYMBOLS CONFIG) then ret tt
  else
  q <- quote (stock s) ;;
  let price := snd q in
  if is_zero price then ret tt else
  volume_ <- truediv (xch_volume * xch_price)%float price ;;
  timestamp <- now ;;
  ok <- submit gw (STOCKS (stock s) buy_addr) 1 volume_ xch_volume ;;
  if negb ok then ret tt else
  modify_self (fun t => set_volume (volume t + volume_)%float t) ;;;
  modify_self (set_last_buy_price price) ;;;
  modify_self (fun t => set_total_cost (total_cost t + xch_volume)%float t) ;;;
  s <- get_self ;;
  a <- truediv (total_cost s) (volume s) ;;
  modify_self (set_avg_price a) ;;;
  modify_self (set_current_price price) ;;;
  s <- get_self ;;
  b <- truediv (volume s * current_price s)%float xch_price ;;
  c <- truediv b (total_cost s) ;;
  modify_self (set_profit (c - 1)%float) ;;;
  modify_self (set_position_status PENDING_BUY) ;;;
  modify_self (fun t => set_buy_count (buy_count t + 1) t) ;;;
  modify_self (set_last_updated timestamp) ;;;
  s <- get_self ;;
  db.record_trade gw (purchase_values s price volume_ xch_volume).

(** Lines 71 and 72 of [sell_stock]: the proceeds of selling the whole
    position at the current price, and the profit they make on the total
    cost. *)
Definition compute_profit (xch_price : float) : Py float :=
  s <- get_self ;;
  request_xch <- truediv (volume s * current_price s)%float xch_price ;;
  c <- truediv request_xch (total_cost s) ;;
  modify_self (set_profit (c - 1)%float) ;;;
  ret request_xch.

Definition sell_stock (xch_price : float) (liquid : bool) : Py unit :=
  s <- get_self ;;
  q <- quote (stock s) ;;
  modify_self (set_current_price (fst q)) ;;;
  s <- get_self ;;
  if is_zero (current_price s) then ret tt else
  request_xch <- compute_profit xch_price ;;
  s <- get_self ;;
  if float_ge (profit s) (MIN_PROFIT CONFIG) || liquid then
    timestamp <- now ;;
    ok <- submit gw (STOCKS (stock s) sell_addr) (wallet_id s)
            request_xch (volume s) ;;
    if negb ok then ret tt else
    db.record_trade gw (sale_values s) ;;;
    modify_self (set_position_status PENDING_SELL) ;;;
    modify_self (set_last_updated timestamp)
  else ret tt.

(** Lines 92 and 93 of [handle_price_drop]: the price implied by the last
    trade, [last_trade[5] / last_trade[4]], and the drop of the current
    price against it.  Indexing [None] is a [TypeError]. *)
Definition last_price (last_trade : option TradeRow) : res float :=
  match last_trade with
  | None => Raise TypeError
  | Some r =>
      match trade_item r 5, trade_item r 4 with
      | Some x5, Some x4 => py_div x5 x4
      | _, _ => Raise IndexError
      end
  end.

Definition drop_percentage (last_trade : option TradeRow)
    (current_price xch_price : float) : res float :=
  and_then (last_price last_trade) (fun last_price =>
  and_then (div current_price xch_price) (fun c =>
  div (last_price - c)%float last_price)).

Definition stop_loss (s : StockTrader) : bool :=
  (buy_count s =? MAX_BUY_TIMES CONFIG)
  && PrimFloat.ltb (profit s) (- MAX_LOSS_PERCENTAGE CONFIG)%float.

Definition handle_price_drop (xch_price : float) : Py unit :=
  s <- get_self ;;
  q <- quote (stock s) ;;
  modify_self (set_current_price (snd q)) ;;;
  s <- get_self ;;
  if is_zero (current_price s) then ret tt else
  b <- truediv (volume s * current_price s)%float xch_price ;;
  c <- truediv b (total_cost s) ;;
  modify_self (set_profit (c - 1)%float) ;;;
  s <- get_self ;;
  last_trade <- db.get_last_trade (stock s) ;;
  drop <- lift (drop_percentage last_trade (current_price s) xch_price) ;;
  (* the debug line formats [xch_price / self.current_price] *)
  _ <- truediv xch_price (current_price s) ;;
  if stop_loss s then
    request_xch <- truediv (volume s * current_price s)%float xch_price ;;
    timestamp <- now ;;
    ok <- submit gw (STOCKS (stock s) sell_addr) (wallet_id s)
            request_xch (volume s) ;;
    if negb ok then ret tt else
    db.record_trade gw (sale_values s) ;;;
    modify_self (set_position_status PENDING_SELL) ;;;
    modify_self (set_last_updated timestamp)
  else
  if float_ge drop (DCA_PERCENTAGE CONFIG)
     && (buy_count s <? MAX_BUY_TIMES CONFIG)
  then buy_stock (BUY_PERCENTAGE CONFIG * INVESTED_XCH CONFIG)%float
         xch_price
  else ret tt.

(** *** The body of the [for trader in traders] loop of [execute_trading] *)

(** Lines 126 to 139.  The result says whether control reaches line 141:
    [false] is the [continue] of line 137. *)
Definition evaluate (xch_price : float) : Py bool :=
  s <- get_self ;;
  open <- (if status_eqb (position_status s) TRADABLE
           then reading (is_market_open gw) else ret false) ;;
  if open then
    (if is_zero (volume s) then
       buy_stock (BUY_PERCENTAGE CONFIG * INVESTED_XCH CONFIG)%float
         xch_price
     else if PrimFloat.ltb 0 (volume s) then
       sell_stock xch_price false ;;;
       s <- get_self ;;
       if status_eqb (position_status s) TRADABLE
       then handle_price_drop xch_price
       else ret tt
     else ret tt) ;;;
    ret true
  else
    q <- quote (stock s) ;;
    modify_self (set_current_price (snd q)) ;;;
    s <- get_self ;;
    if is_zero (current_price s) then ret false else
    (if PrimFloat.ltb 0 (total_cost s) then
       b <- truediv (volume s * current_price s)%float xch_price ;;
       c <- truediv b (total_cost s) ;;
       modify_self (set_profit (c - 1)%float)
     else ret tt) ;;;
    ret true.

(** Lines 141 to 145: the status line (which formats
    [trader.current_price / xch_price]), the running balance and the
    write to the store. *)
Definition report_and_persist (xch_price stock_balance : float)
  : Py float :=
  s <- get_self ;;
  _ <- truediv (current_price s) xch_price ;;
  let stock_balance := (stock_balance + volume s * current_price s)%float in
  db.update_position gw s ;;;
  ret stock_balance.

(** The loop over the traders.  Each trader object is bound to [self] for
    its turn and read back afterwards. *)
Fixpoint for_traders (traders : list StockTrader)
    (xch_price stock_balance : float) : Py (list StockTrader * float) :=
  match traders with
  | [] => ret ([], stock_balance)
  | trader :: rest =>
      modify (with_self trader) ;;;
      go_on <- evaluate xch_price ;;
      stock_balance <- (if go_on
                        then report_and_persist xch_price stock_balance
                        else ret stock_balance) ;;
      trader <- get_self ;;
      r <- for_traders rest xch_price stock_balance ;;
      ret (trader :: fst r, snd r)
  end.

(** One turn of the [while True] loop, lines 119 to 145.  Without a
    reference price the turn does nothing.  What follows the loop
    (reconciliation of pending orders, the portfolio summary, the sleep)
    is the gateway's and does not write to the store. *)
Definition tick (traders : list StockTrader)
  : Py (list StockTrader * float) :=
  x <- reading (get_xch_price gw) ;;
  match x with
  | None => ret (traders, 0%float)
  | Some xch_price => for_traders traders xch_price 0%float
  end.

(** Line 116 of [execute_trading]: the list comprehension
    [[StockTrader(stock, logger) for stock in CONFIG["TRADING_SYMBOLS"]]],
    one construction after the other. *)
Fixpoint construct_all (symbols : list string) : Py (list StockTrader) :=
  match symbols with
  | [] => ret []
  | stock :: rest =>
      __init__ stock ;;;
      trader <- get_self ;;
      traders <- construct_all rest ;;
      ret (trader :: traders)
  end.

Definition startup : Py (list StockTrader) :=
  construct_all (TRADING_SYMBOLS CONFIG).

End WithEnvironment.
End stock_trader.

(** * A concrete market

    The scenarios of the spec: the symbol AAPL, a reference price of 100, a
    funding increment of 10, a profit threshold of 0.1, at most three buys. *)

Module Scenario.

Set Warnings "-inexact-float".

(** A gateway that always quotes [(bid, ask)], answers every order with
    [accept] and gives [xch] as the reference price. *)
Definition market (bid ask : float) (accept : bool) (xch : option float)
  : Gateway :=
  mkGateway (fun _ _ => (bid, ask)) (fun _ _ _ _ _ => accept)
    (fun _ => true) (fun _ => xch) (fun _ _ => 2) (fun n => Z.of_nat n).

Definition config : Config :=
  mkConfig [] ["AAPL"%string] 0.1%float 3 0.2%float 0.05%float 0.1%float
    100%float.

Definition flat : StockTrader :=
  mkTrader "AAPL" 0%float 0 0%float 0%float 0%float 0%float 0%float
    TRADABLE 0 2.

(** The position after the first buy of the spec's scenario, last quoted
    at 40. *)
Definition held : StockTrader :=
  mkTrader "AAPL" 20%float 1 50%float 10%float 0.5%float 40%float 0%float
    TRADABLE 0 2.

(** The same holdings after the last buy allowed. *)
Definition exhausted : StockTrader :=
  mkTrader "AAPL" 20%float 3 50%float 10%float 0.5%float 40%float 0%float
    TRADABLE 0 2.

(** A position that holds 20 units at no recorded cost. *)
Definition costless : StockTrader :=
  mkTrader "AAPL" 20%float 1 50%float 0%float 0%float 40%float 0%float
    TRADABLE 0 2.

Definition pending : StockTrader :=
  mkTrader "AAPL" 20%float 1 50%float 10%float 0.5%float 40%float 0%float
    PENDING_BUY 0 2.

(** The ledger row of that buy: the symbol, the action, the price 50, the
    quantity 20 and the funding amount 10. *)
Definition funded_row : TradeRow :=
  mkTrade 1 (PyStr "AAPL") (PyStr "BUY") (PyFloat 50%float)
    (PyFloat 20%float) (PyFloat 10%float) 0.

Definition machine (t : StockTrader) (ledger : list TradeRow) : Machine :=
  mkMachine t ledger (Z.of_nat (length ledger)) ∅ [] [] 0.

Set Warnings "+inexact-float".

End Scenario.

(** * Properties *)

(** ** Evaluation *)

(** Evaluation on an opened machine: the model's definitions are unfolded
    and the projections computed; the tests on floats and on the gateway's
    answers stay in place. *)
Ltac py_run :=
  cbv beta iota zeta delta
    [stock_trader.buy_stock stock_trader.sell_stock
     stock_trader.compute_profit stock_trader.purchase_values
     stock_trader.sale_values
     stock_trader.handle_price_drop stock_trader.now stock_trader.quote
     stock_trader.__init__ stock_trader.load_position stock_trader.loaded
     db.create_position
     db.get_last_trade db.get_position db.update_position db.record_trade
     db.position_row
     bind ret raise lift get modify get_self modify_self reading submit
     truediv div
     with_self with_readings with_orders
     set_volume set_buy_count set_last_buy_price set_total_cost
     set_avg_price set_current_price set_profit set_position_status
     set_last_updated set_wallet_id STOCKS
     self trades trades_seq positions journal orders readings
     stock volume buy_count last_buy_price total_cost avg_price
     current_price profit position_status last_updated wallet_id
     o_address o_wallet_id o_request o_offer o_accepted
     fst snd negb].

Tactic Notation "py_run" "in" hyp(H) :=
  cbv beta iota zeta delta
    [stock_trader.buy_stock stock_trader.sell_stock
     stock_trader.compute_profit stock_trader.purchase_values
     stock_trader.sale_values
     stock_trader.handle_price_drop stock_trader.now stock_trader.quote
     stock_trader.__init__ stock_trader.load_position stock_trader.loaded
     db.create_position
     db.get_last_trade db.get_position db.update_position db.record_trade
     db.position_row
     bind ret raise lift get modify get_self modify_self reading submit
     truediv div
     with_self with_readings with_orders
     set_volume set_buy_count set_last_buy_price set_total_cost
     set_avg_price set_current_price set_profit set_position_status
     set_last_updated set_wallet_id STOCKS
     self trades trades_seq positions journal orders readings
     stock volume buy_count last_buy_price total_cost avg_price
     current_price profit position_status last_updated wallet_id
     o_address o_wallet_id o_request o_offer o_accepted
     fst snd negb] in H.

(** Evaluation of the loop body, the three operations left folded; the
    projections are computed only where the record is known. *)
Ltac py_loop :=
  repeat (progress (
    cbv beta iota zeta delta
      [stock_trader.evaluate stock_trader.report_and_persist
       stock_trader.tick stock_trader.quote
       db.update_position db.position_row
       bind ret raise lift get modify get_self modify_self reading
       truediv div with_self with_readings with_orders
       set_current_price set_profit fst snd];
    cbn [self trades trades_seq positions journal orders readings
         stock volume buy_count last_buy_price total_cost avg_price
         current_price profit position_status last_updated wallet_id])).

(** Evaluation of the loop itself, its body left folded. *)
Ltac py_outer :=
  repeat (progress (
    cbv beta iota zeta delta
      [stock_trader.tick bind ret raise get modify get_self reading
       with_self with_readings];
    cbn [self trades trades_seq positions journal orders readings
         fst snd])).

(** Use the facts at hand about the tests, as far as they apply. *)
Ltac py_rew :=
  repeat match goal with
         | H : _ = _ |- _ => progress (rewrite H; py_run)
         end.

Ltac py_open m :=
  destruct m as [[? ? ? ? ? ? ? ? ? ? ?] ? ? ? ? ? ?].

(** What the store makes of the zeros of a fresh position. *)
Ltac py_fresh :=
  change (int64 0) with true;
  change (sql_real 0) with (Some 0%float).

Section Operations.

Variable gw : Gateway.
Variable CONFIG : Config.

Abbreviation buy_stock := (stock_trader.buy_stock gw CONFIG).
Abbreviation sell_stock := (stock_trader.sell_stock gw CONFIG).
Abbreviation handle_price_drop := (stock_trader.handle_price_drop gw CONFIG).
Abbreviation evaluate := (stock_trader.evaluate gw CONFIG).
Abbreviation for_traders := (stock_trader.for_traders gw CONFIG).
Abbreviation tick := (stock_trader.tick gw CONFIG).

(** ** Vocabulary *)

(** The ask price [buy_stock] and [handle_price_drop] fetch first, and the
    bid price [sell_stock] fetches. *)
Definition ask_of (m : Machine) : float :=
  snd (get_stock_price_from_dinari gw (readings m) (stock (self m))).

Definition bid_of (m : Machine) : float :=
  fst (get_stock_price_from_dinari gw (readings m) (stock (self m))).

Definition sell_only (s : StockTrader) : bool :=
  existsb (String.eqb (stock s)) (SELL_ONLY_SYMBOLS CONFIG).

(** The order [buy_stock] submits, and the gateway's answer to it. *)
Definition buy_order (xch_volume xch_price : float) (m : Machine) : Order :=
  let volume_ := (xch_volume * xch_price / ask_of m)%float in
  let a := STOCKS (stock (self m)) buy_addr in
  mkOrder a 1 volume_ xch_volume
    (send_asset gw (S (S (readings m))) a 1 volume_ xch_volume).

(** The position an accepted buy leaves when no division fails. *)
Definition bought (xch_volume xch_price : float) (m : Machine)
  : StockTrader :=
  let s := self m in
  let price := ask_of m in
  let volume_ := (xch_volume * xch_price / price)%float in
  let v := (volume s + volume_)%float in
  let tc := (total_cost s + xch_volume)%float in
  mkTrader (stock s) v (buy_count s + 1) price tc (tc / v)%float price
    (v * price / xch_price / tc - 1)%float PENDING_BUY
    (datetime_now gw (S (readings m))) (wallet_id s).

(** The machine once the fetched price [p] is stored in [current_price]. *)
Definition quoted (p : float) (m : Machine) : Machine :=
  with_self (set_current_price p (self m))
    (with_readings (S (readings m)) m).

Definition proceeds (p xch_price : float) (s : StockTrader) : float :=
  (volume s * p / xch_price)%float.

Definition profit_ratio (p xch_price : float) (s : StockTrader) : float :=
  (proceeds p xch_price s / total_cost s - 1)%float.

(** The machine once the profit at price [p] is stored as well. *)
Definition evaluated (p xch_price : float) (m : Machine) : Machine :=
  with_self
    (set_profit (profit_ratio p xch_price (self m))
       (set_current_price p (self m)))
    (with_readings (S (readings m)) m).

(** The order that sells the whole position at price [p]. *)
Definition liquidation (p xch_price : float) (m : Machine) : Order :=
  let s := self m in
  let a := STOCKS (stock s) sell_addr in
  mkOrder a (wallet_id s) (proceeds p xch_price s) (volume s)
    (send_asset gw (S (S (readings m))) a (wallet_id s)
       (proceeds p xch_price s) (volume s)).

(** The machine after the clock was read and the order [o] sent. *)
Definition ordered (o : Order) (m : Machine) : Machine :=
  with_orders (orders m ++ [o]) (with_readings (S (S (readings m))) m).

Definition sell_wanted (liquid : bool) (xch_price : float) (m : Machine)
  : bool :=
  float_ge (profit_ratio (bid_of m) xch_price (self m)) (MIN_PROFIT CONFIG)
  || liquid.

Definition last_trade_of (m : Machine) : option TradeRow :=
  last (List.filter (fun r => is_str (stock (self m)) (tr_stock r))
          (trades m)).

Definition drop_of (xch_price : float) (m : Machine) : res float :=
  stock_trader.drop_percentage (last_trade_of m) (ask_of m) xch_price.

Definition dca_wanted (drop : float) (s : StockTrader) : bool :=
  float_ge drop (DCA_PERCENTAGE CONFIG)
  && (buy_count s <? MAX_BUY_TIMES CONFIG).

(** The gateway answered no to the one order sent between [m] and [m']. *)
Definition rejected (m m' : Machine) : Prop :=
  exists o, orders m' = orders m ++ [o] /\ o_accepted o = false.

(** The fields of a position other than [current_price] and [profit]. *)
Definition holding (s : StockTrader) :=
  (stock s, volume s, buy_count s, last_buy_price s, total_cost s,
   avg_price s, position_status s, last_updated s, wallet_id s).

(** The three operations of a position. *)
Inductive operation : Type :=
| Buy (xch_volume : float)
| Sell (liquid : bool)
| Drawdown.

Definition run (op : operation) (xch_price : float) : Py unit :=
  match op with
  | Buy xch_volume => buy_stock xch_volume xch_price
  | Sell liquid => sell_stock xch_price liquid
  | Drawdown => handle_price_drop xch_price
  end.

(** The price the operation fetches first: the bid for a sell, the ask
    otherwise. *)
Definition fetched (op : operation) (m : Machine) : float :=
  match op with
  | Sell _ => bid_of m
  | _ => ask_of m
  end.

(** The invariant of a position: no holdings, no cost. *)
Definition flat_means_no_cost (s : StockTrader) : Prop :=
  is_zero (volume s) = true -> is_zero (total_cost s) = true.

(** The symbols whose row [update_position] wrote, in the order of the
    writes. *)
Definition position_writes (j : list Stmt) : list string :=
  flat_map (fun st => match st with
                      | InsertOrReplacePosition key => [key]
                      | _ => []
                      end) j.

(** No quote lookup returns the zero sentinel. *)
Definition no_sentinel : Prop :=
  forall n s, is_zero (snd (get_stock_price_from_dinari gw n s)) = false.

Ltac py_facts :=
  unfold sell_only, sell_wanted, dca_wanted, drop_of, last_trade_of,
    liquidation, ordered, evaluated, quoted, profit_ratio, proceeds,
    buy_order, bought, ask_of, bid_of in *.

(** ** The ledger *)

Lemma record_trade_five (a1 a2 a3 a4 a5 : pyval) (m : Machine) :
  exists m',
    db.record_trade gw [a1; a2; a3; a4; a5] m = (Ok tt, m')
    /\ trades m' =
         trades m ++
         [mkTrade (trades_seq m + 1) a1 a2 a3 a4 a5
            (datetime_now gw (readings m))]
    /\ self m' = self m.
Proof.
  eexists. split; [reflexivity|]. split; reflexivity.
Qed.

Lemma record_trade_arity (args : list pyval) (m : Machine) :
  length args <> 5%nat -> db.record_trade gw args m = (Raise TypeError, m).
Proof.
  intros Hlen.
  do 6 (destruct args as [|? args]; try reflexivity).
  simpl in Hlen. congruence.
Qed.

(** ** [buy_stock], path by path *)

Lemma buy_stock_skipped xch_volume xch_price m :
  sell_only (self m) = true ->
  buy_stock xch_volume xch_price m = (Ok tt, m).
Proof.
  unfold sell_only. py_open m. intros H. py_run in H. py_run.
  rewrite H. reflexivity.
Qed.

Lemma buy_stock_no_price xch_volume xch_price m :
  sell_only (self m) = false ->
  is_zero (ask_of m) = true ->
  buy_stock xch_volume xch_price m
  = (Ok tt, with_readings (S (readings m)) m).
Proof.
  unfold sell_only, ask_of. py_open m. intros H1 H2.
  py_run in H1. py_run in H2. py_run.
  rewrite H1, H2. reflexivity.
Qed.

Lemma buy_stock_rejected xch_volume xch_price m :
  sell_only (self m) = false ->
  is_zero (ask_of m) = false ->
  o_accepted (buy_order xch_volume xch_price m) = false ->
  buy_stock xch_volume xch_price m
  = (Ok tt,
     with_orders (orders m ++ [buy_order xch_volume xch_price m])
       (with_readings (S (S (S (readings m)))) m)).
Proof.
  unfold sell_only, buy_order, ask_of. py_open m. intros H1 H2 H3.
  py_run in H1. py_run in H2. py_run in H3. py_run.
  rewrite H1, H2, H3. reflexivity.
Qed.

Lemma buy_stock_accepted xch_volume xch_price m :
  sell_only (self m) = false ->
  is_zero (ask_of m) = false ->
  o_accepted (buy_order xch_volume xch_price m) = true ->
  is_zero (volume (bought xch_volume xch_price m)) = false ->
  is_zero xch_price = false ->
  is_zero (total_cost (bought xch_volume xch_price m)) = false ->
  buy_stock xch_volume xch_price m
  = (Raise TypeError,
     with_self (bought xch_volume xch_price m)
       (with_orders (orders m ++ [buy_order xch_volume xch_price m])
          (with_readings (S (S (S (readings m)))) m))).
Proof.
  unfold sell_only, buy_order, bought, ask_of. py_open m.
  intros H1 H2 H3 H4 H5 H6.
  py_run in H1. py_run in H2. py_run in H3. py_run in H4. py_run in H6.
  py_run. rewrite H1, H2, H3, H4, H5, H6. reflexivity.
Qed.

(** Every path of [buy_stock]: it returns having changed neither the
    position nor the store (skipped, no price, rejected), or the order was
    accepted and it raises. *)
Lemma buy_stock_paths xch_volume xch_price m :
  exists r m',
    buy_stock xch_volume xch_price m = (r, m')
    /\ trades m' = trades m
    /\ positions m' = positions m
    /\ journal m' = journal m
    /\ stock (self m') = stock (self m)
    /\ ((r = Ok tt /\ self m' = self m
         /\ (orders m' = orders m
             \/ (orders m' = orders m ++ [buy_order xch_volume xch_price m]
                 /\ o_accepted (buy_order xch_volume xch_price m) = false)))
        \/ (orders m' = orders m ++ [buy_order xch_volume xch_price m]
            /\ o_accepted (buy_order xch_volume xch_price m) = true
            /\ is_zero (ask_of m) = false
            /\ (r = Raise ZeroDivisionError
                \/ (r = Raise TypeError
                    /\ is_zero (volume (self m')) = false)))).
Proof.
  destruct (sell_only (self m)) eqn:H1.
  { rewrite buy_stock_skipped by assumption.
    do 2 eexists. split; [reflexivity|]. repeat split. left. auto. }
  destruct (is_zero (ask_of m)) eqn:H2.
  { rewrite buy_stock_no_price by assumption.
    do 2 eexists. split; [reflexivity|]. repeat split. left. auto. }
  destruct (o_accepted (buy_order xch_volume xch_price m)) eqn:H3.
  2:{ rewrite buy_stock_rejected by assumption.
      do 2 eexists. split; [reflexivity|]. repeat split. left. auto. }
  unfold sell_only, buy_order, ask_of in *. py_open m.
  py_run in H1. py_run in H2. py_run in H3. py_run.
  rewrite H1, H2, H3.
  repeat match goal with
         | |- context [if ?c then _ else _] => destruct c eqn:?; py_run
         end;
    do 2 eexists; (split; [reflexivity|]); py_run; repeat split;
    right; repeat split; auto.
Qed.

(** C4 (as the code has it).  A flat position, not sell-only, buys for 10
    at a reference price of 100 and an ask of 50, and the gateway accepts:
    the order asks for 20 units, the position holds 20 at a cost of 10 and
    an average price of 0.5, with one buy counted and the status
    PENDING_BUY; then [record_trade], called with six values, raises
    [TypeError], and the ledger has no new row. *)
Theorem flat_buy_scenario (m : Machine) :
  sell_only (self m) = false ->
  volume (self m) = 0%float ->
  total_cost (self m) = 0%float ->
  buy_count (self m) = 0 ->
  ask_of m = 50%float ->
  o_accepted (buy_order 10 100 m) = true ->
  exists m',
    buy_stock 10 100 m = (Raise TypeError, m')
    /\ orders m' = orders m ++ [buy_order 10 100 m]
    /\ o_request (buy_order 10 100 m) = 20%float
    /\ o_offer (buy_order 10 100 m) = 10%float
    /\ volume (self m') = 20%float
    /\ total_cost (self m') = 10%float
    /\ avg_price (self m') = 0.5%float
    /\ buy_count (self m') = 1
    /\ position_status (self m') = PENDING_BUY
    /\ trades m' = trades m.
Proof.
  intros Hs Hv Hc Hn Ha Ho.
  rewrite buy_stock_accepted; try assumption.
  - eexists. split; [reflexivity|].
    unfold bought, buy_order. cbv zeta. rewrite Ha, Hv, Hc, Hn.
    repeat split; reflexivity.
  - rewrite Ha. reflexivity.
  - unfold bought. cbv zeta. rewrite Ha, Hv. reflexivity.
  - reflexivity.
  - unfold bought. cbv zeta. rewrite Hc. reflexivity.
Qed.

(** ** [sell_stock], path by path *)

Lemma sell_stock_no_price xch_price liquid m :
  is_zero (bid_of m) = true ->
  sell_stock xch_price liquid m = (Ok tt, quoted (bid_of m) m).
Proof.
  py_facts. py_open m. intros H. py_run in H. py_run.
  rewrite H. reflexivity.
Qed.

Lemma sell_stock_zero_division xch_price liquid m :
  is_zero (bid_of m) = false ->
  is_zero xch_price || is_zero (total_cost (self m)) = true ->
  sell_stock xch_price liquid m
  = (Raise ZeroDivisionError, quoted (bid_of m) m).
Proof.
  py_facts. py_open m. intros H1 H2. py_run in H1. py_run in H2. py_run.
  rewrite H1. destruct (is_zero xch_price); [reflexivity|].
  cbn [orb] in H2. rewrite H2. reflexivity.
Qed.

Lemma sell_stock_below xch_price liquid m :
  is_zero (bid_of m) = false ->
  is_zero xch_price = false ->
  is_zero (total_cost (self m)) = false ->
  sell_wanted liquid xch_price m = false ->
  sell_stock xch_price liquid m
  = (Ok tt, evaluated (bid_of m) xch_price m).
Proof.
  py_facts. py_open m. intros H1 H2 H3 H4.
  py_run in H1. py_run in H3. py_run in H4. py_run.
  rewrite H1, H2, H3, H4. reflexivity.
Qed.

Lemma sell_stock_rejected xch_price liquid m :
  is_zero (bid_of m) = false ->
  is_zero xch_price = false ->
  is_zero (total_cost (self m)) = false ->
  sell_wanted liquid xch_price m = true ->
  o_accepted (liquidation (bid_of m) xch_price m) = false ->
  sell_stock xch_price liquid m
  = (Ok tt,
     ordered (liquidation (bid_of m) xch_price m)
       (evaluated (bid_of m) xch_price m)).
Proof.
  py_facts. py_open m. intros H1 H2 H3 H4 H5.
  py_run in H1. py_run in H3. py_run in H4. py_run in H5. py_run.
  rewrite H1, H2, H3, H4, H5. reflexivity.
Qed.

Lemma sell_stock_accepted xch_price liquid m :
  is_zero (bid_of m) = false ->
  is_zero xch_price = false ->
  is_zero (total_cost (self m)) = false ->
  sell_wanted liquid xch_price m = true ->
  o_accepted (liquidation (bid_of m) xch_price m) = true ->
  sell_stock xch_price liquid m
  = (Raise TypeError,
     ordered (liquidation (bid_of m) xch_price m)
       (evaluated (bid_of m) xch_price m)).
Proof.
  py_facts. py_open m. intros H1 H2 H3 H4 H5.
  py_run in H1. py_run in H3. py_run in H4. py_run in H5. py_run.
  rewrite H1, H2, H3, H4, H5. reflexivity.
Qed.

(** C3 (amended).  At a nonzero bid, a nonzero reference price and a
    nonzero total cost, [sell_stock] stores the bid in [current_price] and
    [volume * bid / xch_price / total_cost - 1] in [profit], and submits an
    order, selling the whole volume for [volume * bid / xch_price], if and
    only if that profit is at least [MIN_PROFIT] or the sale is forced.
    Below the threshold and not forced it returns with no order sent, the
    ledger untouched and the other fields of the position as they were. *)
Theorem sell_stock_decision (xch_price : float) (liquid : bool)
    (m : Machine) :
  is_zero (bid_of m) = false ->
  is_zero xch_price = false ->
  is_zero (total_cost (self m)) = false ->
  let bid := bid_of m in
  let s := self m in
  let profit_ := (volume s * bid / xch_price / total_cost s - 1)%float in
  let m' := snd (sell_stock xch_price liquid m) in
  current_price (self m') = bid
  /\ profit (self m') = profit_
  /\ (float_ge profit_ (MIN_PROFIT CONFIG) || liquid = true ->
      exists ok,
        orders m' =
          orders m ++
          [mkOrder (STOCKS (stock s) sell_addr) (wallet_id s)
             (volume s * bid / xch_price)%float (volume s) ok])
  /\ (float_ge profit_ (MIN_PROFIT CONFIG) || liquid = false ->
      fst (sell_stock xch_price liquid m) = Ok tt
      /\ orders m' = orders m
      /\ trades m' = trades m
      /\ holding (self m') = holding s).
Proof.
  intros Hb Hx Hc. cbv zeta.
  destruct (sell_wanted liquid xch_price m) eqn:Hw.
  - destruct (o_accepted (liquidation (bid_of m) xch_price m)) eqn:Ho;
      [rewrite sell_stock_accepted by assumption
      |rewrite sell_stock_rejected by assumption];
      py_facts; py_open m; py_run in Hw; py_run;
      repeat split; intros; solve [eexists; reflexivity | congruence].
  - rewrite sell_stock_below by assumption.
    py_facts. py_open m. py_run in Hw. py_run.
    repeat split; try congruence.
Qed.

(** A tradable position with holdings, in market hours, is handed to
    [sell_stock]; what [sell_stock] raises leaves the loop body. *)
Lemma evaluate_dispatches_sell xch_price m e m2 :
  position_status (self m) = TRADABLE ->
  is_market_open gw (readings m) = true ->
  is_zero (volume (self m)) = false ->
  PrimFloat.ltb 0 (volume (self m)) = true ->
  sell_stock xch_price false (with_readings (S (readings m)) m)
  = (Raise e, m2) ->
  evaluate xch_price m = (Raise e, m2).
Proof.
  py_open m. cbn [self position_status readings volume].
  intros -> Hopen Hz Hpos. unfold with_readings.
  cbn [self trades trades_seq positions journal orders].
  intros Hsell. py_loop. cbn [status_eqb]. py_loop.
  rewrite Hopen. py_loop. rewrite Hz, Hpos. py_loop.
  rewrite Hsell. reflexivity.
Qed.

(** C9.  [sell_stock] divides the proceeds by [total_cost] unguarded: on a
    position whose total cost is zero the profit computation raises
    [ZeroDivisionError]; so does [sell_stock] once it has fetched a nonzero
    bid, having stored the bid and nothing else; and the loop body hands
    [sell_stock] every tradable position with holdings in market hours,
    whatever its total cost. *)
Theorem sell_stock_unguarded_division (xch_price : float) (m : Machine) :
  is_zero (total_cost (self m)) = true ->
  stock_trader.compute_profit xch_price m = (Raise ZeroDivisionError, m)
  /\ (forall liquid,
        is_zero (bid_of m) = false ->
        sell_stock xch_price liquid m
        = (Raise ZeroDivisionError, quoted (bid_of m) m))
  /\ (forall m0,
        m = with_readings (S (readings m0)) m0 ->
        position_status (self m0) = TRADABLE ->
        is_market_open gw (readings m0) = true ->
        is_zero (volume (self m0)) = false ->
        PrimFloat.ltb 0 (volume (self m0)) = true ->
        is_zero (bid_of m) = false ->
        evaluate xch_price m0
        = (Raise ZeroDivisionError, quoted (bid_of m) m)).
Proof.
  intros Hc.
  assert (Hsell : forall liquid,
             is_zero (bid_of m) = false ->
             sell_stock xch_price liquid m
             = (Raise ZeroDivisionError, quoted (bid_of m) m)).
  { intros l Hb. apply sell_stock_zero_division; [assumption|].
    rewrite Hc. apply orb_true_r. }
  split; [|split; [exact Hsell|]].
  - py_open m. py_run in Hc. py_run.
    destruct (is_zero xch_price); [reflexivity|]. rewrite Hc. reflexivity.
  - intros m0 -> Hst Hopen Hz Hpos Hb.
    apply evaluate_dispatches_sell; try assumption. apply Hsell, Hb.
Qed.

(** ** [handle_price_drop], path by path *)

Lemma handle_price_drop_no_price xch_price m :
  is_zero (ask_of m) = true ->
  handle_price_drop xch_price m = (Ok tt, quoted (ask_of m) m).
Proof.
  py_facts. py_open m. intros H. py_run in H. py_run.
  rewrite H. reflexivity.
Qed.

Lemma handle_price_drop_zero_division xch_price m :
  is_zero (ask_of m) = false ->
  is_zero xch_price || is_zero (total_cost (self m)) = true ->
  handle_price_drop xch_price m
  = (Raise ZeroDivisionError, quoted (ask_of m) m).
Proof.
  py_facts. py_open m. intros H1 H2. py_run in H1. py_run in H2. py_run.
  rewrite H1. destruct (is_zero xch_price); [reflexivity|].
  cbn [orb] in H2. rewrite H2. reflexivity.
Qed.

Lemma handle_price_drop_no_drop xch_price m e :
  is_zero (ask_of m) = false ->
  is_zero xch_price = false ->
  is_zero (total_cost (self m)) = false ->
  drop_of xch_price m = Raise e ->
  handle_price_drop xch_price m
  = (Raise e, evaluated (ask_of m) xch_price m).
Proof.
  py_facts. py_open m. intros H1 H2 H3 H4.
  py_run in H1. py_run in H3. py_run in H4. py_run.
  rewrite H1, H2, H3, H4. reflexivity.
Qed.

Lemma handle_price_drop_stop_loss xch_price m d :
  is_zero (ask_of m) = false ->
  is_zero xch_price = false ->
  is_zero (total_cost (self m)) = false ->
  drop_of xch_price m = Ok d ->
  stock_trader.stop_loss CONFIG (self (evaluated (ask_of m) xch_price m))
  = true ->
  handle_price_drop xch_price m
  = (if o_accepted (liquidation (ask_of m) xch_price m)
     then Raise TypeError else Ok tt,
     ordered (liquidation (ask_of m) xch_price m)
       (evaluated (ask_of m) xch_price m)).
Proof.
  py_facts. py_open m. intros H1 H2 H3 H4 H5.
  py_run in H1. py_run in H3. py_run in H4. py_run in H5. py_run.
  py_rew.
  match goal with
  | |- context [send_asset ?g ?n ?a ?w ?x ?y] =>
      destruct (send_asset g n a w x y)
  end; reflexivity.
Qed.

Lemma handle_price_drop_dca xch_price m d :
  is_zero (ask_of m) = false ->
  is_zero xch_price = false ->
  is_zero (total_cost (self m)) = false ->
  drop_of xch_price m = Ok d ->
  stock_trader.stop_loss CONFIG (self (evaluated (ask_of m) xch_price m))
  = false ->
  dca_wanted d (self m) = true ->
  handle_price_drop xch_price m
  = buy_stock (BUY_PERCENTAGE CONFIG * INVESTED_XCH CONFIG)%float xch_price
      (evaluated (ask_of m) xch_price m).
Proof.
  py_facts. py_open m. intros H1 H2 H3 H4 H5 H6.
  py_run in H1. py_run in H3. py_run in H4. py_run in H5. py_run in H6.
  py_run. py_rew. reflexivity.
Qed.

Lemma handle_price_drop_idle xch_price m d :
  is_zero (ask_of m) = false ->
  is_zero xch_price = false ->
  is_zero (total_cost (self m)) = false ->
  drop_of xch_price m = Ok d ->
  stock_trader.stop_loss CONFIG (self (evaluated (ask_of m) xch_price m))
  = false ->
  dca_wanted d (self m) = false ->
  handle_price_drop xch_price m
  = (Ok tt, evaluated (ask_of m) xch_price m).
Proof.
  py_facts. py_open m. intros H1 H2 H3 H4 H5 H6.
  py_run in H1. py_run in H3. py_run in H4. py_run in H5. py_run in H6.
  py_run. py_rew. reflexivity.
Qed.

Lemma stop_loss_true (s : StockTrader) :
  stock_trader.stop_loss CONFIG s = true ->
  buy_count s = MAX_BUY_TIMES CONFIG
  /\ PrimFloat.ltb (profit s) (- MAX_LOSS_PERCENTAGE CONFIG)%float = true.
Proof.
  unfold stock_trader.stop_loss. intros H.
  apply andb_prop in H as [H1 H2]. apply Z.eqb_eq in H1. auto.
Qed.

Lemma stop_loss_false (s : StockTrader) :
  stock_trader.stop_loss CONFIG s = false ->
  ~ (buy_count s = MAX_BUY_TIMES CONFIG
     /\ PrimFloat.ltb (profit s) (- MAX_LOSS_PERCENTAGE CONFIG)%float
        = true).
Proof.
  unfold stock_trader.stop_loss. intros H [H1 H2].
  apply Z.eqb_eq in H1. rewrite H1, H2 in H. discriminate.
Qed.

(** C5.  The orders one call of [handle_price_drop] sends: none; or one
    sell order, and then the buy count equals [MAX_BUY_TIMES] and the
    recomputed profit is below [-MAX_LOSS_PERCENTAGE]; or one buy order,
    and then the stop-loss test failed, the drop is at least
    [DCA_PERCENTAGE] and the buy count is below [MAX_BUY_TIMES].  With the
    buy count at the maximum the last case is excluded, and the two orders
    never go out together. *)
Theorem drawdown_branches (xch_price : float) (m : Machine) :
  let s := self m in
  let m' := snd (handle_price_drop xch_price m) in
  let profit_ :=
    (volume s * ask_of m / xch_price / total_cost s - 1)%float in
  let stop :=
    buy_count s = MAX_BUY_TIMES CONFIG
    /\ PrimFloat.ltb profit_ (- MAX_LOSS_PERCENTAGE CONFIG)%float = true in
  orders m' = orders m
  \/ (exists o,
        orders m' = orders m ++ [o]
        /\ o_address o = STOCKS (stock s) sell_addr
        /\ stop)
  \/ (exists o drop,
        orders m' = orders m ++ [o]
        /\ o_address o = STOCKS (stock s) buy_addr
        /\ ~ stop
        /\ drop_of xch_price m = Ok drop
        /\ float_ge drop (DCA_PERCENTAGE CONFIG) = true
        /\ buy_count s < MAX_BUY_TIMES CONFIG).
Proof.
  cbv zeta.
  destruct (is_zero (ask_of m)) eqn:Hb.
  { rewrite (handle_price_drop_no_price _ _ Hb). left. reflexivity. }
  destruct (is_zero xch_price || is_zero (total_cost (self m))) eqn:Hz.
  { rewrite (handle_price_drop_zero_division _ _ Hb Hz).
    left. reflexivity. }
  apply orb_false_elim in Hz as [Hx Hc].
  destruct (drop_of xch_price m) as [d|e] eqn:Hd.
  2:{ rewrite (handle_price_drop_no_drop _ _ e Hb Hx Hc Hd).
      left. reflexivity. }
  destruct (stock_trader.stop_loss CONFIG
              (self (evaluated (ask_of m) xch_price m))) eqn:Hstop.
  { rewrite (handle_price_drop_stop_loss _ _ d Hb Hx Hc Hd Hstop).
    apply stop_loss_true in Hstop.
    right. left. eexists. split; [reflexivity|]. split; [reflexivity|].
    exact Hstop. }
  destruct (dca_wanted d (self m)) eqn:Hdca.
  2:{ rewrite (handle_price_drop_idle _ _ d Hb Hx Hc Hd Hstop Hdca).
      left. reflexivity. }
  rewrite (handle_price_drop_dca _ _ d Hb Hx Hc Hd Hstop Hdca).
  apply stop_loss_false in Hstop.
  destruct (buy_stock_paths
              (BUY_PERCENTAGE CONFIG * INVESTED_XCH CONFIG)%float xch_price
              (evaluated (ask_of m) xch_price m))
    as (r0 & m0 & Hrun0 & _ & _ & _ & _ & Hcase).
  rewrite Hrun0. cbn [snd].
  assert (Hsent : orders m0 = orders m
                  \/ exists o, orders m0 = orders m ++ [o]
                               /\ o_address o
                                  = STOCKS (stock (self m)) buy_addr).
  { destruct Hcase as [(_ & _ & [Ho | (Ho & _)]) | (Ho & _)].
    - left. exact Ho.
    - right. eexists. split; [exact Ho|]. reflexivity.
    - right. eexists. split; [exact Ho|]. reflexivity. }
  destruct Hsent as [Ho | (o & Ho & Ha)]; [left; exact Ho|].
  right. right. exists o, d.
  unfold dca_wanted in Hdca. apply andb_prop in Hdca as [Hge Hlt].
  apply Z.ltb_lt in Hlt. auto 10.
Qed.

(** ** The last trade and the drop *)

Lemma drop_percentage_fails (lt : option TradeRow) (cp xch_price : float) :
  lt = None
  \/ (exists lp, stock_trader.last_price lt = Ok lp /\ is_zero lp = true) ->
  exists e, stock_trader.drop_percentage lt cp xch_price = Raise e.
Proof.
  unfold stock_trader.drop_percentage.
  intros [-> | (lp & -> & Hz)]; cbn [stock_trader.last_price and_then].
  - eauto.
  - unfold div. destruct (is_zero xch_price); cbn [and_then]; [eauto|].
    rewrite Hz. eauto.
Qed.

Lemma drop_percentage_ok (lt : option TradeRow) (cp xch_price d : float) :
  stock_trader.drop_percentage lt cp xch_price = Ok d ->
  exists row lp,
    lt = Some row /\ stock_trader.last_price (Some row) = Ok lp
    /\ is_zero lp = false.
Proof.
  unfold stock_trader.drop_percentage. intros H.
  destruct lt as [row|]; [|discriminate].
  destruct (stock_trader.last_price (Some row)) as [lp|e] eqn:Hlp;
    [|discriminate].
  exists row, lp. split; [reflexivity|]. split; [exact Hlp|].
  cbn [and_then] in H. unfold div in H.
  destruct (is_zero xch_price); [discriminate|]. cbn [and_then] in H.
  destruct (is_zero lp); [discriminate|reflexivity].
Qed.


(** C10 (amended).  Once it has fetched a nonzero ask, [handle_price_drop]
    indexes the last trade and divides by the price it implies: with no
    last trade for the symbol, or an implied price of zero, it raises,
    sending no order; and whenever it returns, the symbol has a last trade
    whose implied price is not zero. *)
Theorem handle_price_drop_needs_last_trade (xch_price : float)
    (m : Machine) :
  is_zero (ask_of m) = false ->
  (last_trade_of m = None
   \/ (exists lp,
         stock_trader.last_price (last_trade_of m) = Ok lp
         /\ is_zero lp = true) ->
   exists e m',
     handle_price_drop xch_price m = (Raise e, m')
     /\ orders m' = orders m /\ trades m' = trades m)
  /\ (forall m',
        handle_price_drop xch_price m = (Ok tt, m') ->
        exists row lp,
          last_trade_of m = Some row
          /\ stock_trader.last_price (Some row) = Ok lp
          /\ is_zero lp = false).
Proof.
  intros Hb.
  destruct (is_zero xch_price || is_zero (total_cost (self m))) eqn:Hz.
  { rewrite (handle_price_drop_zero_division _ _ Hb Hz).
    split; [|discriminate]. intros _. do 2 eexists.
    split; [reflexivity|]. split; reflexivity. }
  apply orb_false_elim in Hz as [Hx Hc].
  destruct (drop_of xch_price m) as [d|e] eqn:Hd.
  2:{ rewrite (handle_price_drop_no_drop _ _ e Hb Hx Hc Hd).
      split; [|discriminate]. intros _. do 2 eexists.
      split; [reflexivity|]. split; reflexivity. }
  split.
  - intros Hlast. exfalso.
    destruct (drop_percentage_fails _ (ask_of m) xch_price Hlast) as [e He].
    unfold drop_of in Hd. congruence.
  - intros _ _. exact (drop_percentage_ok _ _ _ _ Hd).
Qed.

(** ** Aborted operations *)

Lemma no_order_not_rejected (m m' : Machine) :
  orders m' = orders m -> ~ rejected m m'.
Proof.
  intros H (o & Ho & _). rewrite H in Ho.
  apply (f_equal (@length Order)) in Ho. rewrite length_app in Ho.
  cbn in Ho. lia.
Qed.

Lemma accepted_not_rejected (m m' : Machine) (o : Order) :
  orders m' = orders m ++ [o] -> o_accepted o = true -> ~ rejected m m'.
Proof.
  intros H Ho (o' & Ho' & Hno). rewrite H in Ho'.
  apply app_inv_head in Ho'. injection Ho' as ->. congruence.
Qed.

Lemma sell_stock_aborted xch_price liquid m r m' :
  sell_stock xch_price liquid m = (r, m') ->
  is_zero (bid_of m) = true \/ rejected m m' ->
  r = Ok tt /\ holding (self m') = holding (self m)
  /\ trades m' = trades m.
Proof.
  intros Hrun Habort.
  destruct (is_zero (bid_of m)) eqn:Hb.
  { rewrite sell_stock_no_price in Hrun by assumption.
    injection Hrun as <- <-. py_open m. repeat split. }
  destruct Habort as [|Hrej]; [discriminate|].
  destruct (is_zero xch_price || is_zero (total_cost (self m))) eqn:Hz.
  { rewrite sell_stock_zero_division in Hrun by assumption.
    injection Hrun as <- <-.
    exfalso. revert Hrej. apply no_order_not_rejected. reflexivity. }
  apply orb_false_elim in Hz as [Hx Hc].
  destruct (sell_wanted liquid xch_price m) eqn:Hw.
  2:{ rewrite sell_stock_below in Hrun by assumption.
      injection Hrun as <- <-.
      exfalso. revert Hrej. apply no_order_not_rejected. reflexivity. }
  destruct (o_accepted (liquidation (bid_of m) xch_price m)) eqn:Ho.
  { rewrite sell_stock_accepted in Hrun by assumption.
    injection Hrun as <- <-.
    exfalso. revert Hrej. eapply accepted_not_rejected; [reflexivity|].
    exact Ho. }
  rewrite sell_stock_rejected in Hrun by assumption.
  injection Hrun as <- <-. py_open m. repeat split.
Qed.

Lemma buy_stock_aborted xch_volume xch_price m r m' :
  buy_stock xch_volume xch_price m = (r, m') ->
  is_zero (ask_of m) = true \/ rejected m m' ->
  r = Ok tt /\ self m' = self m /\ trades m' = trades m.
Proof.
  intros Hrun Habort.
  destruct (buy_stock_paths xch_volume xch_price m)
    as (r0 & m0 & Hrun0 & Ht & _ & _ & _ & Hcase).
  rewrite Hrun in Hrun0. injection Hrun0 as <- <-.
  destruct Hcase as [(-> & Hs & _) | (Ho & Hacc & Hask & _)].
  - auto.
  - exfalso. destruct Habort as [Hz | Hrej]; [congruence|].
    revert Hrej. eapply accepted_not_rejected; eassumption.
Qed.

Lemma handle_price_drop_aborted xch_price m r m' :
  handle_price_drop xch_price m = (r, m') ->
  is_zero (ask_of m) = true \/ rejected m m' ->
  r = Ok tt /\ holding (self m') = holding (self m)
  /\ trades m' = trades m.
Proof.
  intros Hrun Habort.
  destruct (is_zero (ask_of m)) eqn:Hb.
  { rewrite handle_price_drop_no_price in Hrun by assumption.
    injection Hrun as <- <-. py_open m. repeat split. }
  destruct Habort as [|Hrej]; [discriminate|].
  destruct (is_zero xch_price || is_zero (total_cost (self m))) eqn:Hz.
  { rewrite handle_price_drop_zero_division in Hrun by assumption.
    injection Hrun as <- <-.
    exfalso. revert Hrej. apply no_order_not_rejected. reflexivity. }
  apply orb_false_elim in Hz as [Hx Hc].
  destruct (drop_of xch_price m) as [d|e] eqn:Hd.
  2:{ rewrite (handle_price_drop_no_drop _ _ e) in Hrun by assumption.
      injection Hrun as <- <-.
      exfalso. revert Hrej. apply no_order_not_rejected. reflexivity. }
  destruct (stock_trader.stop_loss CONFIG
              (self (evaluated (ask_of m) xch_price m))) eqn:Hstop.
  { rewrite (handle_price_drop_stop_loss _ _ d) in Hrun by assumption.
    destruct (o_accepted (liquidation (ask_of m) xch_price m)) eqn:Ho;
      injection Hrun as <- <-.
    - exfalso. revert Hrej. eapply accepted_not_rejected; [reflexivity|].
      exact Ho.
    - py_open m. repeat split. }
  destruct (dca_wanted d (self m)) eqn:Hdca.
  2:{ rewrite (handle_price_drop_idle _ _ d) in Hrun by assumption.
      injection Hrun as <- <-.
      exfalso. revert Hrej. apply no_order_not_rejected. reflexivity. }
  rewrite (handle_price_drop_dca _ _ d) in Hrun by assumption.
  destruct (buy_stock_paths
              (BUY_PERCENTAGE CONFIG * INVESTED_XCH CONFIG)%float xch_price
              (evaluated (ask_of m) xch_price m))
    as (r0 & m0 & Hrun0 & Ht & _ & _ & _ & Hcase).
  rewrite Hrun in Hrun0. injection Hrun0 as <- <-.
  destruct Hcase as [(-> & Hs & _) | (Ho & Hacc & _)].
  - rewrite Hs, Ht. py_open m. repeat split.
  - exfalso. revert Hrej. eapply accepted_not_rejected; eassumption.
Qed.

(** C2 (amended).  When the price an operation fetches is the zero
    sentinel, or the gateway rejects the order it submits, the operation
    returns normally with the ledger as it was and with every field of the
    position as it was other than [current_price] and [profit]; a buy
    leaves those two as they were as well. *)
Theorem abort_keeps_position (op : operation) (xch_price : float)
    (m m' : Machine) (r : res unit) :
  run op xch_price m = (r, m') ->
  is_zero (fetched op m) = true \/ rejected m m' ->
  r = Ok tt
  /\ trades m' = trades m
  /\ holding (self m') = holding (self m)
  /\ (forall xch_volume, op = Buy xch_volume -> self m' = self m).
Proof.
  intros Hrun Habort. destruct op as [xch_volume | liquid | ]; cbn in *.
  - destruct (buy_stock_aborted _ _ _ _ _ Hrun Habort) as (Hr & Hs & Ht).
    repeat split; try assumption; [| auto]. now rewrite Hs.
  - destruct (sell_stock_aborted _ _ _ _ _ Hrun Habort) as (Hr & Hs & Ht).
    repeat split; try assumption. discriminate.
  - destruct (handle_price_drop_aborted _ _ _ _ Hrun Habort)
      as (Hr & Hs & Ht).
    repeat split; try assumption. discriminate.
Qed.

(** ** What the operations leave alone *)

Lemma holding_flat_means_no_cost (s s' : StockTrader) :
  holding s' = holding s -> flat_means_no_cost s -> flat_means_no_cost s'.
Proof.
  unfold holding, flat_means_no_cost. intros H.
  injection H as _ Hv _ _ Hc _ _ _ _. rewrite Hv, Hc. auto.
Qed.

Lemma holding_stock (s s' : StockTrader) :
  holding s' = holding s -> stock s' = stock s.
Proof.
  unfold holding. intros H. injection H as H _ _ _ _ _ _ _ _. exact H.
Qed.

Lemma sell_stock_frame xch_price liquid m :
  let m' := snd (sell_stock xch_price liquid m) in
  holding (self m') = holding (self m)
  /\ trades m' = trades m
  /\ positions m' = positions m
  /\ journal m' = journal m.
Proof.
  cbv zeta.
  destruct (is_zero (bid_of m)) eqn:Hb.
  { rewrite (sell_stock_no_price _ _ _ Hb). py_open m. repeat split. }
  destruct (is_zero xch_price || is_zero (total_cost (self m))) eqn:Hz.
  { rewrite (sell_stock_zero_division _ _ _ Hb Hz).
    py_open m. repeat split. }
  apply orb_false_elim in Hz as [Hx Hc].
  destruct (sell_wanted liquid xch_price m) eqn:Hw.
  2:{ rewrite (sell_stock_below _ _ _ Hb Hx Hc Hw).
      py_open m. repeat split. }
  destruct (o_accepted (liquidation (bid_of m) xch_price m)) eqn:Ho.
  - rewrite (sell_stock_accepted _ _ _ Hb Hx Hc Hw Ho).
    py_open m. repeat split.
  - rewrite (sell_stock_rejected _ _ _ Hb Hx Hc Hw Ho).
    py_open m. repeat split.
Qed.

Lemma handle_price_drop_frame xch_price m :
  exists r m',
    handle_price_drop xch_price m = (r, m')
    /\ trades m' = trades m
    /\ positions m' = positions m
    /\ journal m' = journal m
    /\ stock (self m') = stock (self m)
    /\ (holding (self m') = holding (self m)
        \/ r = Raise ZeroDivisionError
        \/ (r = Raise TypeError /\ is_zero (volume (self m')) = false)).
Proof.
  destruct (is_zero (ask_of m)) eqn:Hb.
  { rewrite (handle_price_drop_no_price _ _ Hb). do 2 eexists.
    split; [reflexivity|]. py_open m. repeat split. left. reflexivity. }
  destruct (is_zero xch_price || is_zero (total_cost (self m))) eqn:Hz.
  { rewrite (handle_price_drop_zero_division _ _ Hb Hz). do 2 eexists.
    split; [reflexivity|]. py_open m. repeat split. left. reflexivity. }
  apply orb_false_elim in Hz as [Hx Hc].
  destruct (drop_of xch_price m) as [d|e] eqn:Hd.
  2:{ rewrite (handle_price_drop_no_drop _ _ e Hb Hx Hc Hd). do 2 eexists.
      split; [reflexivity|]. py_open m. repeat split. left. reflexivity. }
  destruct (stock_trader.stop_loss CONFIG
              (self (evaluated (ask_of m) xch_price m))) eqn:Hstop.
  { rewrite (handle_price_drop_stop_loss _ _ d Hb Hx Hc Hd Hstop).
    do 2 eexists. split; [reflexivity|]. py_open m. repeat split.
    left. reflexivity. }
  destruct (dca_wanted d (self m)) eqn:Hdca.
  2:{ rewrite (handle_price_drop_idle _ _ d Hb Hx Hc Hd Hstop Hdca).
      do 2 eexists. split; [reflexivity|]. py_open m. repeat split.
      left. reflexivity. }
  rewrite (handle_price_drop_dca _ _ d Hb Hx Hc Hd Hstop Hdca).
  destruct (buy_stock_paths
              (BUY_PERCENTAGE CONFIG * INVESTED_XCH CONFIG)%float xch_price
              (evaluated (ask_of m) xch_price m))
    as (r0 & m0 & Hrun0 & Ht & Hp & Hj & Hst & Hcase).
  exists r0, m0. split; [exact Hrun0|].
  rewrite Ht, Hp, Hj, Hst. repeat split.
  destruct Hcase as [(_ & Hs & _) | (_ & _ & _ & [Hr | Hr])].
  - left. rewrite Hs. py_open m. reflexivity.
  - right. left. exact Hr.
  - right. right. exact Hr.
Qed.

(** C1 (as the code has it).  [record_trade] takes five values and
    appends exactly one row made of them: the stock, the action, a price,
    a volume and one more number stored as [profit]; the row has no place
    for a funding amount.  Called with six values, as [buy_stock],
    [sell_stock] and [handle_price_drop] call it (the funding amount being
    the fifth), it raises [TypeError] and stores nothing: no buy, no sell
    and no drawdown ever adds a row to the ledger. *)
Theorem record_trade_rows :
  (forall (a1 a2 a3 a4 a5 : pyval) (m : Machine),
      exists m',
        db.record_trade gw [a1; a2; a3; a4; a5] m = (Ok tt, m')
        /\ trades m' =
             trades m ++
             [mkTrade (trades_seq m + 1) a1 a2 a3 a4 a5
                (datetime_now gw (readings m))])
  /\ (forall (a1 a2 a3 a4 a5 a6 : pyval) (m : Machine),
        db.record_trade gw [a1; a2; a3; a4; a5; a6] m
        = (Raise TypeError, m))
  /\ (forall (op : operation) (xch_price : float) (m : Machine),
        trades (snd (run op xch_price m)) = trades m).
Proof.
  split; [|split].
  - intros a1 a2 a3 a4 a5 m.
    destruct (record_trade_five a1 a2 a3 a4 a5 m) as (m' & H1 & H2 & _).
    exists m'. split; assumption.
  - intros. apply record_trade_arity. simpl. discriminate.
  - intros [xch_volume | liquid | ] xch_price m; cbn [run].
    + destruct (buy_stock_paths xch_volume xch_price m)
        as (r & m' & Hrun & Ht & _).
      rewrite Hrun. exact Ht.
    + apply (sell_stock_frame xch_price liquid m).
    + destruct (handle_price_drop_frame xch_price m)
        as (r & m' & Hrun & Ht & _).
      rewrite Hrun. exact Ht.
Qed.

Lemma init_fresh (name : string) (m : Machine) :
  positions m !! name = None ->
  exists m',
    stock_trader.__init__ gw name m = (Ok tt, m')
    /\ self m' =
         mkTrader name 0%float 0 0%float 0%float 0%float 0%float 0%float
           TRADABLE (datetime_now gw (readings m))
           (add_token gw (S (readings m)) name).
Proof.
  intros H. py_open m. py_run in H. py_run. py_rew. py_fresh. py_run.
  py_rew.
  eexists. split; reflexivity.
Qed.

(** An accepted buy has added the quantity to the holdings and the funding
    amount to the total cost by the time it raises. *)
Lemma buy_stock_accepted_booked xch_volume xch_price m :
  sell_only (self m) = false ->
  is_zero (ask_of m) = false ->
  o_accepted (buy_order xch_volume xch_price m) = true ->
  exists e m',
    buy_stock xch_volume xch_price m = (Raise e, m')
    /\ orders m' = orders m ++ [buy_order xch_volume xch_price m]
    /\ volume (self m')
       = (volume (self m) + o_request (buy_order xch_volume xch_price m))%float
    /\ total_cost (self m')
       = (total_cost (self m)
          + o_offer (buy_order xch_volume xch_price m))%float.
Proof.
  unfold sell_only, buy_order, ask_of. py_open m. intros H1 H2 H3.
  py_run in H1. py_run in H2. py_run in H3. py_run.
  rewrite H1, H2, H3.
  repeat match goal with
         | |- context [if ?c then _ else _] => destruct c eqn:?; py_run
         end;
    do 2 eexists; (split; [reflexivity|]); py_run; repeat split.
Qed.

(** Whatever buy order was accepted between [m] and [m'], its quantity
    added to the holdings of [m] leaves holdings. *)
Definition bought_holdings (m m' : Machine) : Prop :=
  forall o,
    orders m' = orders m ++ [o] ->
    snd (o_address o) = buy_addr ->
    o_accepted o = true ->
    is_zero (volume (self m) + o_request o) = false.

(** An accepted buy that leaves the holdings at zero fails at line 57,
    the division for the average price, the funding amount already added
    to the total cost. *)
Lemma buy_stock_no_holdings xch_volume xch_price m :
  sell_only (self m) = false ->
  is_zero (ask_of m) = false ->
  o_accepted (buy_order xch_volume xch_price m) = true ->
  is_zero (volume (self m) + o_request (buy_order xch_volume xch_price m))
  = true ->
  exists m',
    buy_stock xch_volume xch_price m = (Raise ZeroDivisionError, m')
    /\ volume (self m')
       = (volume (self m) + o_request (buy_order xch_volume xch_price m))%float
    /\ total_cost (self m') = (total_cost (self m) + xch_volume)%float.
Proof.
  unfold sell_only, buy_order, ask_of. py_open m. intros H1 H2 H3 H4.
  py_run in H1. py_run in H2. py_run in H3. py_run in H4. py_run.
  rewrite H1, H2, H3, H4.
  eexists. split; [reflexivity|]. split; reflexivity.
Qed.

Lemma buy_stock_flat_means_no_cost xch_volume xch_price m r m' :
  buy_stock xch_volume xch_price m = (r, m') ->
  flat_means_no_cost (self m) ->
  bought_holdings m m' ->
  flat_means_no_cost (self m').
Proof.
  intros Hrun Hinv Hok.
  destruct (sell_only (self m)) eqn:H1.
  { rewrite buy_stock_skipped in Hrun by assumption.
    injection Hrun as <- <-. exact Hinv. }
  destruct (is_zero (ask_of m)) eqn:H2.
  { rewrite buy_stock_no_price in Hrun by assumption.
    injection Hrun as <- <-. exact Hinv. }
  destruct (o_accepted (buy_order xch_volume xch_price m)) eqn:H3.
  2:{ rewrite buy_stock_rejected in Hrun by assumption.
      injection Hrun as <- <-. exact Hinv. }
  destruct (buy_stock_accepted_booked xch_volume xch_price m H1 H2 H3)
    as (e & m0 & Hrun0 & Ho & Hv & Hc).
  rewrite Hrun in Hrun0. injection Hrun0 as -> ->.
  intros Hflat. rewrite Hv, (Hok _ Ho eq_refl H3) in Hflat.
  discriminate Hflat.
Qed.

(** C8 (amended).  A position built for a symbol with no stored record
    has no holdings and no cost.  An operation that starts from a position
    where no holdings means no cost ends in such a position, whatever its
    outcome, a failure included, unless it has a buy order accepted whose
    quantity leaves the holdings at zero; [sell_stock] always does.  The
    buy left out fails at the division for the average price, with the
    quantity added to the holdings and the funding amount to the total
    cost. *)
Theorem flat_means_no_cost_kept :
  (forall (name : string) (m : Machine),
      positions m !! name = None ->
      exists m',
        stock_trader.__init__ gw name m = (Ok tt, m')
        /\ volume (self m') = 0%float /\ total_cost (self m') = 0%float
        /\ flat_means_no_cost (self m'))
  /\ (forall (op : operation) (xch_price : float) (m m' : Machine)
             (r : res unit),
        run op xch_price m = (r, m') ->
        flat_means_no_cost (self m) ->
        bought_holdings m m' ->
        flat_means_no_cost (self m'))
  /\ (forall (xch_price : float) (liquid : bool) (m m' : Machine)
             (r : res unit),
        sell_stock xch_price liquid m = (r, m') ->
        flat_means_no_cost (self m) ->
        flat_means_no_cost (self m'))
  /\ (forall (xch_volume xch_price : float) (m : Machine),
        let o := buy_order xch_volume xch_price m in
        sell_only (self m) = false ->
        is_zero (ask_of m) = false ->
        o_accepted o = true ->
        is_zero (volume (self m) + o_request o) = true ->
        exists m',
          buy_stock xch_volume xch_price m = (Raise ZeroDivisionError, m')
          /\ volume (self m') = (volume (self m) + o_request o)%float
          /\ total_cost (self m') = (total_cost (self m) + xch_volume)%float).
Proof.
  assert (Hsell : forall xch_price liquid m m' r,
             sell_stock xch_price liquid m = (r, m') ->
             flat_means_no_cost (self m) ->
             flat_means_no_cost (self m')).
  { intros xch_price liquid m m' r Hrun Hinv.
    pose proof (sell_stock_frame xch_price liquid m) as Hframe.
    cbv zeta in Hframe. rewrite Hrun in Hframe.
    destruct Hframe as (Hh & _).
    exact (holding_flat_means_no_cost _ _ Hh Hinv). }
  split; [|split; [|split; [exact Hsell|]]].
  3:{ intros xch_volume xch_price m. cbv zeta. apply buy_stock_no_holdings. }
  - intros name m H. destruct (init_fresh name m H) as (m' & Hrun & Hs).
    exists m'. rewrite Hs. repeat split; try assumption.
  - intros op xch_price m m' r Hrun Hinv Hok.
    destruct op as [xch_volume | liquid | ]; cbn [run] in Hrun.
    + exact (buy_stock_flat_means_no_cost _ _ _ _ _ Hrun Hinv Hok).
    + exact (Hsell _ _ _ _ _ Hrun Hinv).
    + assert (Hsame : holding (self m') = holding (self m) ->
                      flat_means_no_cost (self m')).
      { intros Hh. exact (holding_flat_means_no_cost _ _ Hh Hinv). }
      destruct (is_zero (ask_of m)) eqn:Hb.
      { rewrite handle_price_drop_no_price in Hrun by assumption.
        injection Hrun as <- <-. apply Hsame. py_open m. reflexivity. }
      destruct (is_zero xch_price || is_zero (total_cost (self m))) eqn:Hz.
      { rewrite handle_price_drop_zero_division in Hrun by assumption.
        injection Hrun as <- <-. apply Hsame. py_open m. reflexivity. }
      apply orb_false_elim in Hz as [Hx Hc].
      destruct (drop_of xch_price m) as [d|e] eqn:Hd.
      2:{ rewrite (handle_price_drop_no_drop _ _ e) in Hrun by assumption.
          injection Hrun as <- <-. apply Hsame. py_open m. reflexivity. }
      destruct (stock_trader.stop_loss CONFIG
                  (self (evaluated (ask_of m) xch_price m))) eqn:Hstop.
      { rewrite (handle_price_drop_stop_loss _ _ d) in Hrun by assumption.
        injection Hrun as <- <-. apply Hsame. py_open m. reflexivity. }
      destruct (dca_wanted d (self m)) eqn:Hdca.
      2:{ rewrite (handle_price_drop_idle _ _ d) in Hrun by assumption.
          injection Hrun as <- <-. apply Hsame. py_open m. reflexivity. }
      rewrite (handle_price_drop_dca _ _ d) in Hrun by assumption.
      apply (buy_stock_flat_means_no_cost _ _ _ _ _ Hrun).
      * apply (holding_flat_means_no_cost (self m)); [|exact Hinv].
        py_open m. reflexivity.
      * intros o Ho Ha Hacc. apply (Hok o); [|exact Ha|exact Hacc].
        rewrite Ho. py_open m. reflexivity.
Qed.

(** ** The loop over the traders *)

(** Whatever [evaluate] does, it writes nothing to the store and keeps the
    symbol; and it takes the [continue] of line 137 only after a quote
    lookup has returned the zero sentinel. *)
Lemma evaluate_frame xch_price m :
  exists r m',
    evaluate xch_price m = (r, m')
    /\ journal m' = journal m
    /\ positions m' = positions m
    /\ stock (self m') = stock (self m)
    /\ (r = Ok false ->
        exists n,
          is_zero (snd (get_stock_price_from_dinari gw n (stock (self m))))
          = true).
Proof.
  py_open m. py_loop.
  repeat first
    [ progress py_loop
    | match goal with
      | |- context [stock_trader.buy_stock gw CONFIG ?a ?b ?M] =>
          let Hrun := fresh "Hrun" in
          destruct (buy_stock_paths a b M)
            as (? & ? & Hrun & _ & ? & ? & ? & _);
          rewrite Hrun; clear Hrun
      | |- context [stock_trader.sell_stock gw CONFIG ?a ?b ?M] =>
          let F := fresh "F" in
          pose proof (sell_stock_frame a b M) as F; cbv zeta in F;
          destruct (stock_trader.sell_stock gw CONFIG a b M);
          cbn [snd] in F; destruct F as (F & _ & ? & ?);
          apply holding_stock in F
      | |- context [stock_trader.handle_price_drop gw CONFIG ?a ?M] =>
          let Hrun := fresh "Hrun" in
          destruct (handle_price_drop_frame a M)
            as (? & ? & Hrun & _ & ? & ? & ? & _);
          rewrite Hrun; clear Hrun
      | |- context [if ?c then _ else _] => destruct c eqn:?
      | |- context [match ?r with Ok _ => _ | Raise _ => _ end] =>
          destruct r
      end ];
    do 2 eexists; (split; [reflexivity|]);
    cbn [self journal positions stock] in *;
    repeat split; try congruence; try discriminate.
  all: intros _; eexists; eassumption.
Qed.

Lemma report_and_persist_ok xch_price balance m r m' :
  stock_trader.report_and_persist gw xch_price balance m = (Ok r, m') ->
  journal m' = journal m ++ [InsertOrReplacePosition (stock (self m))]
  /\ positions m' =
       <[stock (self m) :=
           db.position_row (self m) (datetime_now gw (readings m))]>
         (positions m)
  /\ self m' = self m.
Proof.
  py_loop. destruct (is_zero xch_price); [discriminate|].
  match goal with |- context [int64 ?z] => destruct (int64 z) end;
    [|discriminate].
  intros [= <- <-]. repeat split.
Qed.

Lemma report_and_persist_raise xch_price balance m e m' :
  stock_trader.report_and_persist gw xch_price balance m = (Raise e, m') ->
  journal m' = journal m /\ positions m' = positions m.
Proof.
  py_loop. destruct (is_zero xch_price); [intros [= <- <-]; auto|].
  match goal with |- context [int64 ?z] => destruct (int64 z) end;
    [discriminate|].
  intros [= <- <-]. auto.
Qed.

Lemma update_position_writes (t : StockTrader) (m : Machine) :
  int64 (buy_count t) = true ->
  db.update_position gw t m
  = (Ok tt,
     mkMachine (self m) (trades m) (trades_seq m)
       (<[stock t := db.position_row t (datetime_now gw (readings m))]>
          (positions m))
       (journal m ++ [InsertOrReplacePosition (stock t)])
       (orders m) (S (readings m))).
Proof.
  intros H. unfold db.update_position, bind, reading. rewrite H. reflexivity.
Qed.

Lemma update_position_overflow (t : StockTrader) (m : Machine) :
  int64 (buy_count t) = false ->
  db.update_position gw t m
  = (Raise OverflowError, with_readings (S (readings m)) m).
Proof.
  intros H. unfold db.update_position, bind, reading. rewrite H. reflexivity.
Qed.

Lemma position_writes_app (j : list Stmt) (keys : list string) :
  position_writes (j ++ map InsertOrReplacePosition keys)
  = position_writes j ++ keys.
Proof.
  unfold position_writes. rewrite flat_map_app. f_equal.
  induction keys as [|k keys IH]; [reflexivity|].
  cbn. f_equal. exact IH.
Qed.

(** *** Which positions a turn writes *)

(** The first test of the loop body, line 126: the position bound to
    [self] is TRADABLE and the market is open.  The market is asked only
    about a TRADABLE position. *)
Definition trading (m : Machine) : bool :=
  status_eqb (position_status (self m)) TRADABLE
  && is_market_open gw (readings m).

(** The ask the other branch fetches at line 134, after the reading of
    the market hours if there was one. *)
Definition requote (m : Machine) : float :=
  snd (get_stock_price_from_dinari gw
         (if status_eqb (position_status (self m)) TRADABLE
          then S (readings m) else readings m)
         (stock (self m))).

(** The position bound to [self] takes the [continue] of line 137: it is
    not traded and its quote is the zero sentinel. *)
Definition skipped (m : Machine) : bool :=
  negb (trading m) && is_zero (requote m).

(** The symbols a run of the loop over [traders] writes when it completes:
    that of each position in turn, unless the position is skipped; the
    machine of the next position is the one the turn of this one leaves. *)
Fixpoint written (traders : list StockTrader)
    (xch_price stock_balance : float) (m : Machine) : list string :=
  match traders with
  | [] => []
  | trader :: rest =>
      (if skipped (with_self trader m) then [] else [stock trader]) ++
      match for_traders [trader] xch_price stock_balance m with
      | (Ok (_, stock_balance), m1) =>
          written rest xch_price stock_balance m1
      | (Raise _, _) => []
      end
  end.

(** When the market hours and the asks do not change in the course of a
    turn, being [open] and [ask] at every reading, this is the test for a
    position to be skipped. *)
Definition passed_over (open : bool) (ask : string -> float)
    (t : StockTrader) : bool :=
  negb (status_eqb (position_status t) TRADABLE && open)
  && is_zero (ask (stock t)).

(** The loop body goes on to line 141 unless the position is skipped. *)
Lemma evaluate_continues xch_price m go_on m' :
  evaluate xch_price m = (Ok go_on, m') -> go_on = negb (skipped m).
Proof.
  unfold skipped, trading, requote. py_open m.
  cbn [self position_status readings stock]. py_loop.
  repeat first
    [ progress py_loop
    | match goal with
      | |- context [stock_trader.buy_stock gw CONFIG ?a ?b ?M] =>
          destruct (stock_trader.buy_stock gw CONFIG a b M) as [[?|?] ?]
      | |- context [stock_trader.sell_stock gw CONFIG ?a ?b ?M] =>
          destruct (stock_trader.sell_stock gw CONFIG a b M) as [[?|?] ?]
      | |- context [stock_trader.handle_price_drop gw CONFIG ?a ?M] =>
          destruct (stock_trader.handle_price_drop gw CONFIG a M)
            as [[?|?] ?]
      | |- context [if ?c then _ else _] => destruct c eqn:?
      end ];
    cbn [andb negb]; try discriminate; intros [= <- <-]; reflexivity.
Qed.

(** The loop over a list is the turn of its first position, then the loop
    over the others from the machine and the balance that turn leaves. *)
Lemma for_traders_cons t rest xch_price balance m :
  for_traders (t :: rest) xch_price balance m
  = match for_traders [t] xch_price balance m with
    | (Ok (ts, balance1), m1) =>
        match for_traders rest xch_price balance1 m1 with
        | (Ok (ts', balance2), m2) => (Ok (ts ++ ts', balance2), m2)
        | (Raise e, m2) => (Raise e, m2)
        end
    | (Raise e, m1) => (Raise e, m1)
    end.
Proof.
  cbn [stock_trader.for_traders].
  unfold bind, ret, modify, get_self.
  destruct (evaluate xch_price (with_self t m)) as [[go_on|e] me];
    [|reflexivity].
  destruct go_on.
  - destruct (stock_trader.report_and_persist gw xch_price balance me)
      as [[b|e] mp]; [|reflexivity].
    cbn [fst snd].
    destruct (for_traders rest xch_price b mp) as [[[ts' b2]|e] m2];
      reflexivity.
  - cbn [fst snd].
    destruct (for_traders rest xch_price balance me) as [[[ts' b2]|e] m2];
      reflexivity.
Qed.

(** The turn of one position: whatever its outcome it writes the row of
    the position or nothing; when it completes, it writes the row unless
    the position is skipped. *)
Lemma turn_writes t xch_price balance m r m' :
  for_traders [t] xch_price balance m = (r, m') ->
  exists persisted : list string,
    journal m' = journal m ++ map InsertOrReplacePosition persisted
    /\ (persisted = [] \/ persisted = [stock t])
    /\ (forall x, r = Ok x ->
        persisted = if skipped (with_self t m) then [] else [stock t]).
Proof.
  cbn [stock_trader.for_traders]. unfold bind, ret, modify, get_self.
  destruct (evaluate_frame xch_price (with_self t m))
    as (re & me & Hrun & Hj & _ & Hs & _).
  change (journal (with_self t m)) with (journal m) in Hj.
  change (stock (self (with_self t m))) with (stock t) in Hs.
  rewrite Hrun. destruct re as [go_on|e].
  2:{ intros [= <- <-]. exists []. rewrite Hj, app_nil_r.
      split; [reflexivity|]. split; [auto | discriminate]. }
  pose proof (evaluate_continues _ _ _ _ Hrun) as Hgo.
  destruct go_on.
  - destruct (skipped (with_self t m)); [discriminate|].
    destruct (stock_trader.report_and_persist gw xch_price balance me)
      as [[b|e] mp] eqn:Hp.
    + apply report_and_persist_ok in Hp as (Hjp & _ & _).
      intros [= <- <-]. exists [stock t].
      rewrite Hjp, Hj, Hs. split; [reflexivity|]. split; auto.
    + apply report_and_persist_raise in Hp as (Hjp & _).
      intros [= <- <-]. exists []. rewrite Hjp, Hj, app_nil_r.
      split; [reflexivity|]. split; [auto | discriminate].
  - destruct (skipped (with_self t m)); [|discriminate].
    intros [= <- <-]. exists []. rewrite Hj, app_nil_r.
    split; [reflexivity|]. split; auto.
Qed.

(** The loop, whatever its outcome, writes positions in their order, none
    twice. *)
Lemma for_traders_writes traders :
  forall xch_price balance m r m',
    for_traders traders xch_price balance m = (r, m') ->
    exists persisted : list string,
      journal m' = journal m ++ map InsertOrReplacePosition persisted
      /\ sublist persisted (map stock traders).
Proof.
  induction traders as [|t rest IH]; intros xch_price balance m r m'.
  - cbn [stock_trader.for_traders]. py_outer. intros [= <- <-].
    exists []. rewrite app_nil_r. split; [reflexivity|]. constructor.
  - rewrite for_traders_cons.
    destruct (for_traders [t] xch_price balance m) as [r1 m1] eqn:H1.
    destruct (turn_writes _ _ _ _ _ _ H1) as (p1 & Hj1 & Hp1 & _).
    assert (Hsub1 : forall l, sublist l (map stock rest) ->
                              sublist (p1 ++ l) (map stock (t :: rest))).
    { intros l Hl. cbn [map].
      destruct Hp1 as [-> | ->]; cbn [app];
        [apply sublist_cons | apply sublist_skip]; exact Hl. }
    destruct r1 as [[ts b1]|e].
    + destruct (for_traders rest xch_price b1 m1) as [r2 m2] eqn:H2.
      destruct (IH _ _ _ _ _ H2) as (p2 & Hj2 & Hsub2).
      assert (Hj : journal m2
                   = journal m ++ map InsertOrReplacePosition (p1 ++ p2)).
      { rewrite Hj2, Hj1, map_app, app_assoc. reflexivity. }
      destruct r2 as [[ts' b2]|e]; intros [= <- <-];
        exists (p1 ++ p2); (split; [exact Hj | exact (Hsub1 _ Hsub2)]).
    + intros [= <- <-]. exists (p1 ++ []).
      split; [rewrite app_nil_r; exact Hj1|].
      apply Hsub1. apply sublist_nil_l.
Qed.

(** The loop that completes writes exactly the positions it did not
    skip. *)
Lemma for_traders_written traders :
  forall xch_price balance m r m',
    for_traders traders xch_price balance m = (Ok r, m') ->
    journal m'
    = journal m
      ++ map InsertOrReplacePosition (written traders xch_price balance m).
Proof.
  induction traders as [|t rest IH]; intros xch_price balance m r m'.
  - cbn [stock_trader.for_traders]. py_outer. intros [= <- <-].
    cbn [written map]. rewrite app_nil_r. reflexivity.
  - rewrite for_traders_cons. cbn [written].
    destruct (for_traders [t] xch_price balance m) as [[[ts b1]|e] m1] eqn:H1;
      [|discriminate].
    destruct (turn_writes _ _ _ _ _ _ H1) as (p1 & Hj1 & _ & Hp1).
    rewrite <- (Hp1 _ eq_refl).
    destruct (for_traders rest xch_price b1 m1) as [[[ts' b2]|e] m2] eqn:H2;
      [|discriminate].
    intros [= <- <-]. rewrite (IH _ _ _ _ _ H2), Hj1, map_app, app_assoc.
    reflexivity.
Qed.

Lemma written_steady traders :
  forall (open : bool) (ask : string -> float) xch_price balance m r m',
    (forall n, is_market_open gw n = open) ->
    (forall n s, snd (get_stock_price_from_dinari gw n s) = ask s) ->
    for_traders traders xch_price balance m = (Ok r, m') ->
    written traders xch_price balance m
    = map stock
        (List.filter (fun t => negb (passed_over open ask t)) traders).
Proof.
  induction traders as [|t rest IH];
    intros open ask xch_price balance m r m' Hopen Hask; [reflexivity|].
  rewrite for_traders_cons. cbn [written List.filter].
  assert (Hskip : skipped (with_self t m) = passed_over open ask t).
  { unfold skipped, trading, requote, passed_over, with_self.
    cbn [self readings]. rewrite Hopen, Hask. reflexivity. }
  rewrite Hskip.
  destruct (for_traders [t] xch_price balance m) as [[[ts b1]|e] m1];
    [|discriminate].
  destruct (for_traders rest xch_price b1 m1) as [[[ts' b2]|e] m2] eqn:H2;
    [|discriminate].
  intros _. rewrite (IH open ask _ _ _ _ _ Hopen Hask H2).
  destruct (passed_over open ask t); reflexivity.
Qed.

(** C7 (amended).  A turn of the loop, whatever its outcome, writes
    positions to the store in the order of the loop and none twice.  The
    turn of one position, when it completes, writes the position exactly
    once, whether it traded, changed or not, unless the position is not
    traded (it is not TRADABLE, or the market is closed) and its quote is
    the zero sentinel: such a position is passed over.  So a tick that has
    a reference price and completes writes exactly the positions that are
    not passed over (when market hours and asks do not change during the
    tick, those that are traded or have an ask other than zero), and a
    tick without a reference price writes none.
    [update_position] replaces the whole row of the symbol, and no other
    row, by the position's fields as the table keeps them and the time of
    the write: writing the same position again leaves the table as one
    write at the later time does, and unchanged when the clock has not
    moved; it fails, writing nothing, when the buy count does not fit the
    table. *)
Theorem tick_persists :
  (forall (traders : list StockTrader) (m m' : Machine)
          (r : res (list StockTrader * float)),
      tick traders m = (r, m') ->
      exists persisted : list string,
        position_writes (journal m')
        = position_writes (journal m) ++ persisted
        /\ sublist persisted (map stock traders))
  /\ (forall (t : StockTrader) (xch_price balance : float) (m m' : Machine)
             (r : list StockTrader * float),
        for_traders [t] xch_price balance m = (Ok r, m') ->
        position_writes (journal m')
        = position_writes (journal m)
          ++ (if skipped (with_self t m) then [] else [stock t]))
  /\ (forall (traders : list StockTrader) (xch_price : float)
             (m m' : Machine) (r : list StockTrader * float),
        get_xch_price gw (readings m) = Some xch_price ->
        tick traders m = (Ok r, m') ->
        position_writes (journal m')
        = position_writes (journal m)
          ++ written traders xch_price 0 (with_readings (S (readings m)) m))
  /\ (forall (traders : list StockTrader) (xch_price : float)
             (m m' : Machine) (r : list StockTrader * float)
             (open : bool) (ask : string -> float),
        (forall n, is_market_open gw n = open) ->
        (forall n s, snd (get_stock_price_from_dinari gw n s) = ask s) ->
        get_xch_price gw (readings m) = Some xch_price ->
        tick traders m = (Ok r, m') ->
        position_writes (journal m')
        = position_writes (journal m)
          ++ map stock
               (List.filter (fun t => negb (passed_over open ask t))
                  traders))
  /\ (forall (traders : list StockTrader) (m : Machine),
        get_xch_price gw (readings m) = None ->
        tick traders m
        = (Ok (traders, 0%float), with_readings (S (readings m)) m))
  /\ (forall (t : StockTrader) (m : Machine),
        int64 (buy_count t) = true ->
        let m1 := snd (db.update_position gw t m) in
        let m2 := snd (db.update_position gw t m1) in
        fst (db.update_position gw t m) = Ok tt
        /\ position_writes (journal m1)
           = position_writes (journal m) ++ [stock t]
        /\ positions m1 =
             <[stock t := db.position_row t (datetime_now gw (readings m))]>
               (positions m)
        /\ positions m2 =
             <[stock t :=
                 db.position_row t (datetime_now gw (S (readings m)))]>
               (positions m)
        /\ (datetime_now gw (S (readings m)) = datetime_now gw (readings m)
            -> positions m2 = positions m1))
  /\ (forall (t : StockTrader) (m : Machine),
        int64 (buy_count t) = false ->
        db.update_position gw t m
        = (Raise OverflowError, with_readings (S (readings m)) m)).
Proof.
  split; [|split; [|split; [|split; [|split; [|split]]]]].
  4:{ intros traders xch_price m m' r open ask Hopen Hask Hx. py_outer.
      rewrite Hx. intros Hrun.
      rewrite (for_traders_written _ _ _ _ _ _ Hrun), position_writes_app.
      rewrite (written_steady _ _ _ _ _ _ _ _ Hopen Hask Hrun).
      reflexivity. }
  - intros traders m m' r. py_outer.
    destruct (get_xch_price gw (readings m)) as [xch_price|] eqn:Hx.
    + intros Hrun.
      destruct (for_traders_writes _ _ _ _ _ _ Hrun)
        as (persisted & Hj & Hsub).
      exists persisted. cbn [journal] in Hj.
      rewrite Hj, position_writes_app. split; [reflexivity | exact Hsub].
    + intros [= <- <-]. exists []. cbn [journal].
      rewrite app_nil_r. split; [reflexivity | apply sublist_nil_l].
  - intros t xch_price balance m m' r Hrun.
    destruct (turn_writes _ _ _ _ _ _ Hrun) as (p & Hj & _ & Hp).
    rewrite Hj, position_writes_app, (Hp _ eq_refl). reflexivity.
  - intros traders xch_price m m' r Hx. py_outer. rewrite Hx.
    intros Hrun. rewrite (for_traders_written _ _ _ _ _ _ Hrun).
    rewrite position_writes_app. reflexivity.
  - intros traders m Hx. py_outer. rewrite Hx. reflexivity.
  - intros t m Hfit. cbv zeta.
    rewrite (update_position_writes t m Hfit). cbn [fst snd].
    rewrite (update_position_writes t _ Hfit).
    cbn [fst snd positions readings journal].
    rewrite insert_insert_eq.
    pose proof (position_writes_app (journal m) [stock t]) as Hw.
    cbn [map] in Hw. rewrite Hw.
    repeat split. intros ->. reflexivity.
  - intros t m. apply update_position_overflow.
Qed.

End Operations.

(** * Instances and counterexamples *)

(** A market of three symbols in which only MSFT has a quote, at 40; the
    reference price is 100 and every order is turned down. *)
Module Portfolio.

Definition gateway : Gateway :=
  mkGateway
    (fun _ s => if String.eqb s "MSFT" then (40%float, 40%float)
                else (0%float, 0%float))
    (fun _ _ _ _ _ => false) (fun _ => true) (fun _ => Some 100%float)
    (fun _ _ => 2) (fun n => Z.of_nat n).

Definition waiting : StockTrader :=
  mkTrader "MSFT" 20%float 1 50%float 10%float 0.5%float 40%float 0%float
    PENDING_BUY 0 2.

Definition empty : StockTrader :=
  mkTrader "GOOG" 0%float 0 0%float 0%float 0%float 0%float 0%float
    TRADABLE 0 2.

Definition traders : list StockTrader := [Scenario.pending; waiting; empty].

End Portfolio.

Lemma flat_buy_scenario_witness :
  let gw := Scenario.market 50 50 true (Some 100%float) in
  let m := Scenario.machine Scenario.flat [] in
  exists m',
    stock_trader.buy_stock gw Scenario.config 10 100 m = (Raise TypeError, m')
    /\ orders m' = orders m ++ [buy_order gw 10 100 m]
    /\ o_request (buy_order gw 10 100 m) = 20%float
    /\ o_offer (buy_order gw 10 100 m) = 10%float
    /\ volume (self m') = 20%float
    /\ total_cost (self m') = 10%float
    /\ avg_price (self m') = 0.5%float
    /\ buy_count (self m') = 1
    /\ position_status (self m') = PENDING_BUY
    /\ trades m' = trades m.
Proof.
  apply (flat_buy_scenario (Scenario.market 50 50 true (Some 100%float))
           Scenario.config (Scenario.machine Scenario.flat []));
    reflexivity.
Defined.

Lemma abort_keeps_position_witness :
  let gw := Scenario.market 0 0 true (Some 100%float) in
  let m := Scenario.machine Scenario.held [] in
  let m' := snd (run gw Scenario.config (Sell false) 100 m) in
  Ok tt = Ok tt
  /\ trades m' = trades m
  /\ holding (self m') = holding (self m)
  /\ (forall xch_volume, Sell false = Buy xch_volume -> self m' = self m).
Proof.
  apply (abort_keeps_position (Scenario.market 0 0 true (Some 100%float))
           Scenario.config (Sell false) 100
           (Scenario.machine Scenario.held [])).
  - reflexivity.
  - left. reflexivity.
Defined.


(** C2, as stated, fails: a sell that finds the zero sentinel has already
    stored it in [current_price] (40 before, 0 after). *)
Lemma sell_without_price_changes_position :
  let gw := Scenario.market 0 0 true (Some 100%float) in
  let m := Scenario.machine Scenario.held [] in
  is_zero (fetched gw (Sell false) m) = true
  /\ self (snd (run gw Scenario.config (Sell false) 100 m)) <> self m.
Proof.
  split; [reflexivity|].
  intros H. apply (f_equal (fun s => is_zero (current_price s))) in H.
  vm_compute in H. discriminate.
Qed.

Lemma sell_stock_decision_witness :
  let gw := Scenario.market 60 60 false (Some 100%float) in
  let m := Scenario.machine Scenario.held [] in
  let bid := bid_of gw m in
  let s := self m in
  let profit_ := (volume s * bid / 100 / total_cost s - 1)%float in
  let m' := snd (stock_trader.sell_stock gw Scenario.config 100 false m) in
  current_price (self m') = bid
  /\ profit (self m') = profit_
  /\ (float_ge profit_ (MIN_PROFIT Scenario.config) || false = true ->
      exists ok,
        orders m' =
          orders m ++
          [mkOrder (STOCKS (stock s) sell_addr) (wallet_id s)
             (volume s * bid / 100)%float (volume s) ok])
  /\ (float_ge profit_ (MIN_PROFIT Scenario.config) || false = false ->
      fst (stock_trader.sell_stock gw Scenario.config 100 false m) = Ok tt
      /\ orders m' = orders m
      /\ trades m' = trades m
      /\ holding (self m') = holding s).
Proof.
  apply (sell_stock_decision (Scenario.market 60 60 false (Some 100%float))
           Scenario.config 100 false (Scenario.machine Scenario.held []));
    reflexivity.
Defined.

(** C3, as stated, fails: at a bid of 50 the profit is 0, below the
    threshold, no order is sent, and yet the position has changed
    ([current_price] was 40 and is now 50). *)
Lemma sell_below_threshold_changes_position :
  let gw := Scenario.market 50 50 true (Some 100%float) in
  let m := Scenario.machine Scenario.held [] in
  let m' := snd (stock_trader.sell_stock gw Scenario.config 100 false m) in
  PrimFloat.ltb 0 (volume (self m)) = true
  /\ is_zero (bid_of gw m) = false
  /\ sell_wanted gw Scenario.config false 100 m = false
  /\ orders m' = orders m
  /\ self m' <> self m.
Proof.
  repeat split; try reflexivity.
  intros H. apply (f_equal (fun s => PrimFloat.eqb (current_price s) 40)) in H.
  vm_compute in H. discriminate.
Qed.

Lemma sell_stock_unguarded_division_witness :
  let gw := Scenario.market 60 60 true (Some 100%float) in
  let m0 := Scenario.machine Scenario.costless [] in
  let m := with_readings (S (readings m0)) m0 in
  stock_trader.compute_profit 100 m = (Raise ZeroDivisionError, m)
  /\ stock_trader.sell_stock gw Scenario.config 100 false m
     = (Raise ZeroDivisionError, quoted (bid_of gw m) m)
  /\ stock_trader.evaluate gw Scenario.config 100 m0
     = (Raise ZeroDivisionError, quoted (bid_of gw m) m).
Proof.
  pose proof (sell_stock_unguarded_division
                (Scenario.market 60 60 true (Some 100%float))
                Scenario.config 100
                (with_readings 1 (Scenario.machine Scenario.costless []))
                eq_refl) as (Hprofit & Hsell & Hloop).
  split; [exact Hprofit|]. split; [apply Hsell; reflexivity|].
  apply (Hloop (Scenario.machine Scenario.costless [])); reflexivity.
Defined.

Lemma handle_price_drop_needs_last_trade_witness :
  let gw := Scenario.market 40 40 true (Some 100%float) in
  let m := Scenario.machine Scenario.held [] in
  (last_trade_of m = None
   \/ (exists lp,
         stock_trader.last_price (last_trade_of m) = Ok lp
         /\ is_zero lp = true) ->
   exists e m',
     stock_trader.handle_price_drop gw Scenario.config 100 m = (Raise e, m')
     /\ orders m' = orders m /\ trades m' = trades m)
  /\ (forall m',
        stock_trader.handle_price_drop gw Scenario.config 100 m
        = (Ok tt, m') ->
        exists row lp,
          last_trade_of m = Some row
          /\ stock_trader.last_price (Some row) = Ok lp
          /\ is_zero lp = false).
Proof.
  apply (handle_price_drop_needs_last_trade
           (Scenario.market 40 40 true (Some 100%float)) Scenario.config
           100 (Scenario.machine Scenario.held [])).
  reflexivity.
Defined.

(** C10, as stated, fails: at the zero sentinel [handle_price_drop]
    returns before it looks the last trade up, empty ledger or not. *)
Lemma drawdown_without_price_returns :
  let gw := Scenario.market 0 0 true (Some 100%float) in
  let m := Scenario.machine Scenario.held [] in
  let out := stock_trader.handle_price_drop gw Scenario.config 100 m in
  trades m = []
  /\ last_trade_of m = None
  /\ fst out = Ok tt
  /\ orders (snd out) = orders m.
Proof.
  repeat split.
Qed.

(** Two operations on a flat position, which has no holdings and no
    cost.  A drawdown at an ask of 40 stores the ask and fails on the
    division by the total cost: the position still has neither holdings
    nor cost.  A buy for 10 at an ask of 50 and a reference price of 100
    is accepted and fails at [record_trade]: the position holds 20 units
    at a cost of 10. *)
Lemma flat_means_no_cost_kept_witness :
  let gw := Scenario.market 40 40 true (Some 100%float) in
  let m := Scenario.machine Scenario.flat [] in
  let out := run gw Scenario.config Drawdown 100 m in
  let gw' := Scenario.market 50 50 true (Some 100%float) in
  let out' := run gw' Scenario.config (Buy 10) 100 m in
  (fst out = Raise ZeroDivisionError
   /\ current_price (self (snd out)) = 40%float
   /\ is_zero (volume (self (snd out))) = true
   /\ flat_means_no_cost (self (snd out)))
  /\ (fst out' = Raise TypeError
      /\ volume (self (snd out')) = 20%float
      /\ total_cost (self (snd out')) = 10%float
      /\ flat_means_no_cost (self (snd out'))).
Proof.
  cbv zeta. split.
  - split; [reflexivity|]. split; [reflexivity|]. split; [reflexivity|].
    refine (proj1 (proj2 (flat_means_no_cost_kept
                            (Scenario.market 40 40 true (Some 100%float))
                            Scenario.config))
              Drawdown 100%float (Scenario.machine Scenario.flat [])
              _ _ _ _ _).
    + vm_compute. reflexivity.
    + intros _. reflexivity.
    + intros o Ho. vm_compute in Ho. discriminate Ho.
  - split; [reflexivity|]. split; [reflexivity|]. split; [reflexivity|].
    refine (proj1 (proj2 (flat_means_no_cost_kept
                            (Scenario.market 50 50 true (Some 100%float))
                            Scenario.config))
              (Buy 10%float) 100%float (Scenario.machine Scenario.flat [])
              _ _ _ _ _).
    + vm_compute. reflexivity.
    + intros _. reflexivity.
    + intros o Ho _ _. vm_compute in Ho. injection Ho as <-. reflexivity.
Defined.

(** C8, as stated, fails: a flat position buys at a reference price of 0,
    the order (for 0 units) is accepted, and the division for the average
    price fails with the cost already raised to 10 and the volume still 0. *)
Lemma buy_at_zero_reference_price_breaks_invariant :
  let gw := Scenario.market 50 50 true (Some 0%float) in
  let m := Scenario.machine Scenario.flat [] in
  let out := run gw Scenario.config (Buy 10) 0 m in
  (is_zero (volume (self m)) = true /\ is_zero (total_cost (self m)) = true)
  /\ fst out = Raise ZeroDivisionError
  /\ is_zero (volume (self (snd out))) = true
  /\ is_zero (total_cost (self (snd out))) = false.
Proof.
  repeat split.
Qed.

(** Three positions in one turn: AAPL, pending and without a quote, is
    passed over; MSFT, pending and quoted at 40, is written; GOOG, tradable
    and flat, finds no quote to buy at and is written all the same. *)
Lemma tick_persists_witness :
  let gw := Portfolio.gateway in
  let m := Scenario.machine Scenario.flat [] in
  let out := stock_trader.tick gw Scenario.config Portfolio.traders m in
  (exists r, fst out = Ok r)
  /\ written gw Scenario.config Portfolio.traders 100 0 (with_readings 1 m)
     = ["MSFT"; "GOOG"]%string
  /\ position_writes (journal (snd out))
     = position_writes (journal m) ++ ["MSFT"; "GOOG"]%string.
Proof.
  cbv zeta.
  assert (Hr : exists r,
             fst (stock_trader.tick Portfolio.gateway Scenario.config
                    Portfolio.traders (Scenario.machine Scenario.flat []))
             = Ok r).
  { eexists. vm_compute. reflexivity. }
  assert (Hw : written Portfolio.gateway Scenario.config Portfolio.traders
                 100 0 (with_readings 1 (Scenario.machine Scenario.flat []))
               = ["MSFT"; "GOOG"]%string).
  { vm_compute. reflexivity. }
  split; [exact Hr|]. split; [exact Hw|].
  destruct Hr as [r Hr]. rewrite <- Hw.
  apply (proj1 (proj2 (proj2 (tick_persists Portfolio.gateway
                                Scenario.config)))
           Portfolio.traders 100%float
           (Scenario.machine Scenario.flat []) _ r eq_refl).
  rewrite <- Hr. apply surjective_pairing.
Defined.

(** C7, as stated, fails.  A pending position whose quote lookup returns
    the zero sentinel is passed over by the [continue] of line 137: the
    turn completes and the store has not been written.  A turn without a
    reference price writes no position.  A turn that fails (here on a
    position held at no cost) has not written the position it failed on.
    Two writes of the same position at different times leave different
    rows, the second with the later time.  And the write of a position
    whose buy count is 2^63 fails and leaves the table as it was. *)
Lemma positions_not_persisted_or_restamped :
  let gw := Scenario.market 0 0 true (Some 100%float) in
  let m := Scenario.machine Scenario.pending [] in
  let out := stock_trader.tick gw Scenario.config [Scenario.pending] m in
  let dry := Scenario.market 60 60 true None in
  let out_dry := stock_trader.tick dry Scenario.config [Scenario.held] m in
  let open := Scenario.market 60 60 true (Some 100%float) in
  let out_failed :=
    stock_trader.tick open Scenario.config [Scenario.costless] m in
  let m1 := snd (db.update_position open Scenario.held m) in
  let m2 := snd (db.update_position open Scenario.held m1) in
  let counted := set_buy_count (2 ^ 63) Scenario.held in
  ((exists r, fst out = Ok r)
   /\ position_writes (journal (snd out)) = position_writes (journal m)
   /\ positions (snd out) = positions m)
  /\ ((exists r, fst out_dry = Ok r)
      /\ position_writes (journal (snd out_dry))
         = position_writes (journal m))
  /\ (fst out_failed = Raise ZeroDivisionError
      /\ position_writes (journal (snd out_failed))
         = position_writes (journal m))
  /\ (self m2 = self m1
      /\ positions m1 !! "AAPL"%string
         = Some (db.position_row Scenario.held 0)
      /\ positions m2 !! "AAPL"%string
         = Some (db.position_row Scenario.held 1)
      /\ positions m2 <> positions m1)
  /\ (fst (db.update_position open counted m) = Raise OverflowError
      /\ positions (snd (db.update_position open counted m)) = positions m).
Proof.
  cbv zeta. split; [|split; [|split; [|split]]].
  5:{ split; reflexivity. }
  - repeat split. eexists. reflexivity.
  - repeat split. eexists. reflexivity.
  - repeat split.
  - assert (H1 : positions
                   (snd (db.update_position
                           (Scenario.market 60 60 true (Some 100%float))
                           Scenario.held
                           (Scenario.machine Scenario.pending [])))
                 !! "AAPL"%string
                 = Some (db.position_row Scenario.held 0)).
    { apply lookup_insert_eq. }
    assert (H2 : positions
                   (snd (db.update_position
                           (Scenario.market 60 60 true (Some 100%float))
                           Scenario.held
                           (snd (db.update_position
                                   (Scenario.market 60 60 true
                                      (Some 100%float))
                                   Scenario.held
                                   (Scenario.machine Scenario.pending [])))))
                 !! "AAPL"%string
                 = Some (db.position_row Scenario.held 1)).
    { apply lookup_insert_eq. }
    split; [reflexivity|]. split; [exact H1|]. split; [exact H2|].
    intros H. rewrite H, H1 in H2. discriminate H2.
Qed.

(** ** The two branches of [handle_price_drop] at work

    With a last trade at an implied price of 0.5: at an ask of 40 the drop
    is 0.2 and a position with one buy repurchases; at an ask of 30 a
    position with three buys has lost 0.4 and is sold. *)

Example drawdown_repurchases :
  let gw := Scenario.market 40 40 false (Some 100%float) in
  let m := Scenario.machine Scenario.held [Scenario.funded_row] in
  let out := stock_trader.handle_price_drop gw Scenario.config 100 m in
  fst out = Ok tt
  /\ map o_address (orders (snd out)) = [STOCKS "AAPL" buy_addr].
Proof.
  split; reflexivity.
Qed.

Example drawdown_stops_loss :
  let gw := Scenario.market 30 30 false (Some 100%float) in
  let m := Scenario.machine Scenario.exhausted [Scenario.funded_row] in
  let out := stock_trader.handle_price_drop gw Scenario.config 100 m in
  fst out = Ok tt
  /\ map o_address (orders (snd out)) = [STOCKS "AAPL" sell_addr].
Proof.
  split; reflexivity.
Qed.

(** * More of the code: the store, the constructor and the loop *)

Section Coverage.

Variable gw : Gateway.
Variable CONFIG : Config.

(** ** Construction and the positions table *)

(** The constructor on any store: it returns, bound to the symbol, with a
    row for the symbol in the table; it creates that row only when there
    was none, and touches nothing else. *)
Lemma init_frame (name : string) (m : Machine) :
  exists m',
    stock_trader.__init__ gw name m = (Ok tt, m')
    /\ stock (self m') = name
    /\ wallet_id (self m') = add_token gw (S (readings m)) name
    /\ is_Some (positions m' !! name)
    /\ (forall k, k <> name -> positions m' !! k = positions m !! k)
    /\ (is_Some (positions m !! name) -> positions m' = positions m)
    /\ trades m' = trades m
    /\ orders m' = orders m.
Proof.
  py_open m. py_run.
  destruct (positions0 !! name) as [row|] eqn:Hrow; py_run.
  - eexists. split; [reflexivity|]. py_run.
    repeat split; try reflexivity. rewrite Hrow. eauto.
  - py_fresh. py_run. rewrite Hrow. py_run.
    eexists. split; [reflexivity|]. py_run.
    repeat split; try reflexivity.
    + rewrite lookup_insert_eq. eauto.
    + intros k Hk. apply lookup_insert_ne. congruence.
    + intros [x Hx]. discriminate.
Qed.

(** The fields of a position that the table stores under its symbol, the
    time apart. *)
Definition booked (s : StockTrader) :=
  (stock s, volume s, buy_count s, last_buy_price s, total_cost s,
   avg_price s, current_price s, profit s, position_status s).

Lemma whole_seconds_idempotent (t : Z) :
  whole_seconds (whole_seconds t) = whole_seconds t.
Proof.
  unfold whole_seconds. f_equal. rewrite Z.mul_comm.
  apply Z.div_mul. discriminate.
Qed.

(** A position whose amounts and prices are numbers. *)
Definition numeric (t : StockTrader) : Prop :=
  is_nan (volume t) = false
  /\ is_nan (last_buy_price t) = false
  /\ is_nan (total_cost t) = false
  /\ is_nan (avg_price t) = false
  /\ is_nan (current_price t) = false
  /\ is_nan (profit t) = false.

(** A float as the table gives it back: a zero comes back as 0.0,
    whatever its sign. *)
Definition unsigned (x : float) : float := if is_zero x then 0%float else x.

(** The position as the table gives it back. *)
Definition reloaded (t : StockTrader) : StockTrader :=
  mkTrader (stock t) (unsigned (volume t)) (buy_count t)
    (unsigned (last_buy_price t)) (unsigned (total_cost t))
    (unsigned (avg_price t)) (unsigned (current_price t))
    (unsigned (profit t)) (position_status t) (last_updated t)
    (wallet_id t).

(** X1.  What [update_position] writes, the constructor reads back.  For a
    position whose amounts and prices are numbers and whose buy count fits
    64 bits, the write succeeds, and a trader built for the symbol right
    after it has the position's fields, a negative zero having become 0.0,
    the time of the write cut to whole seconds, and the wallet id the
    gateway gives; building it adds no row. *)
Theorem persisted_position_reloads (t : StockTrader) (m : Machine) :
  int64 (buy_count t) = true ->
  numeric t ->
  let m1 := snd (db.update_position gw t m) in
  let out := stock_trader.__init__ gw (stock t) m1 in
  fst (db.update_position gw t m) = Ok tt
  /\ fst out = Ok tt
  /\ self (snd out) =
       set_wallet_id (add_token gw (S (S (readings m))) (stock t))
         (set_last_updated (whole_seconds (datetime_now gw (readings m)))
            (reloaded t))
  /\ positions (snd out) = positions m1
  /\ journal (snd out) = journal m1.
Proof.
  intros Hfit (Hv & Hl & Hc & Ha & Hp & Hr). cbv zeta.
  rewrite (update_position_writes gw t m Hfit). cbn [fst snd].
  unfold reloaded. destruct t. py_open m.
  cbn [volume last_buy_price total_cost avg_price current_price profit]
    in Hv, Hl, Hc, Ha, Hp, Hr.
  py_run. rewrite lookup_insert_eq. py_run.
  unfold sql_real, unsigned. rewrite Hv, Hl, Hc, Ha, Hp, Hr.
  destruct (is_zero volume0), (is_zero last_buy_price0),
    (is_zero total_cost0), (is_zero avg_price0), (is_zero current_price0),
    (is_zero profit0); repeat split.
Qed.

(** X2.  The constructor never fails, and building a trader a second time
    for the same symbol reloads the position of the first: the same
    fields, the time cut to whole seconds, and no row added or changed. *)
Theorem constructor_reloads (name : string) (m : Machine) :
  let first := stock_trader.__init__ gw name m in
  let second := stock_trader.__init__ gw name (snd first) in
  fst first = Ok tt
  /\ fst second = Ok tt
  /\ booked (self (snd second)) = booked (self (snd first))
  /\ last_updated (self (snd second))
     = whole_seconds (last_updated (self (snd first)))
  /\ positions (snd second) = positions (snd first).
Proof.
  py_open m. py_run.
  destruct (positions0 !! name) as [row|] eqn:Hrow; py_run.
  - rewrite Hrow. py_run. rewrite whole_seconds_idempotent. repeat split.
  - py_fresh. py_run. rewrite Hrow. py_run. rewrite lookup_insert_eq.
    py_run. repeat split.
Qed.

(** The constructions at startup, one symbol after the other. *)
Lemma construct_all_frame (symbols : list string) :
  forall m,
    exists traders m',
      stock_trader.construct_all gw symbols m = (Ok traders, m')
      /\ map stock traders = symbols
      /\ (forall k, is_Some (positions m !! k) -> is_Some (positions m' !! k))
      /\ (forall k, k ∈ symbols -> is_Some (positions m' !! k))
      /\ (forall k, k ∉ symbols -> positions m' !! k = positions m !! k)
      /\ trades m' = trades m
      /\ orders m' = orders m.
Proof.
  induction symbols as [|name rest IH]; intros m.
  - exists [], m. split; [reflexivity|]. repeat split; auto.
    intros k Hk. inversion Hk.
  - cbn [stock_trader.construct_all]. unfold bind at 1.
    destruct (init_frame name m)
      as (m1 & Hrun & Hs & _ & Hrow & Hother & Hkeep & Ht & Ho).
    rewrite Hrun. unfold bind at 1, get_self at 1.
    destruct (IH m1) as (traders & m' & Hrest & Hmap & Hmono & Hall
                         & Hout & Ht' & Ho').
    unfold bind at 1. rewrite Hrest. unfold ret.
    exists (self m1 :: traders), m'. split; [reflexivity|].
    assert (Hmono1 : forall k, is_Some (positions m !! k) ->
                               is_Some (positions m1 !! k)).
    { intros k Hk. destruct (decide (k = name)) as [->|Hne];
        [exact Hrow | rewrite (Hother k Hne); exact Hk]. }
    repeat split.
    + cbn [map]. rewrite Hs, Hmap. reflexivity.
    + intros k Hk. apply Hmono, Hmono1, Hk.
    + intros k Hk. apply elem_of_cons in Hk as [->|Hk];
        [apply Hmono, Hrow | apply Hall, Hk].
    + intros k Hk. apply not_elem_of_cons in Hk as [Hne Hk].
      rewrite (Hout k Hk). apply Hother, Hne.
    + congruence.
    + congruence.
Qed.

(** X3.  Startup never fails: it builds one trader per configured symbol,
    in the order of the configuration; afterwards every configured symbol
    has a row in the positions table, the rows of other symbols are as
    they were, and neither an order nor a trade has been made. *)
Theorem startup_builds_every_symbol (m : Machine) :
  exists traders m',
    stock_trader.startup gw CONFIG m = (Ok traders, m')
    /\ map stock traders = TRADING_SYMBOLS CONFIG
    /\ (forall k, k ∈ TRADING_SYMBOLS CONFIG -> is_Some (positions m' !! k))
    /\ (forall k, k ∉ TRADING_SYMBOLS CONFIG ->
        positions m' !! k = positions m !! k)
    /\ trades m' = trades m
    /\ orders m' = orders m.
Proof.
  unfold stock_trader.startup.
  destruct (construct_all_frame (TRADING_SYMBOLS CONFIG) m)
    as (traders & m' & Hrun & Hmap & _ & Hall & Hout & Ht & Ho).
  exists traders, m'. auto 10.
Qed.

(** ** The operations, case by case *)

Abbreviation buy_stock := (stock_trader.buy_stock gw CONFIG).
Abbreviation sell_stock := (stock_trader.sell_stock gw CONFIG).
Abbreviation handle_price_drop := (stock_trader.handle_price_drop gw CONFIG).
Abbreviation evaluate := (stock_trader.evaluate gw CONFIG).
Abbreviation for_traders := (stock_trader.for_traders gw CONFIG).
Abbreviation tick := (stock_trader.tick gw CONFIG).

Ltac py_vocab :=
  unfold sell_only, sell_wanted, dca_wanted, drop_of, last_trade_of,
    liquidation, ordered, evaluated, quoted, profit_ratio, proceeds,
    buy_order, bought, ask_of, bid_of in *.

(** The orders and the position of a machine given as [quoted],
    [evaluated] or [ordered]. *)
Ltac py_orders :=
  cbn [snd fst];
  unfold ordered, evaluated, quoted, with_self, with_orders, with_readings;
  cbn [orders self trades positions journal readings].

(** An accepted buy raises: a division fails before the buy is counted, or
    the buy is booked in full and [record_trade] fails. *)
Lemma buy_stock_accepted_cases xch_volume xch_price m :
  sell_only CONFIG (self m) = false ->
  is_zero (ask_of gw m) = false ->
  o_accepted (buy_order gw xch_volume xch_price m) = true ->
  exists e m',
    buy_stock xch_volume xch_price m = (Raise e, m')
    /\ orders m' = orders m ++ [buy_order gw xch_volume xch_price m]
    /\ ((e = ZeroDivisionError
         /\ buy_count (self m') = buy_count (self m)
         /\ position_status (self m') = position_status (self m))
        \/ (e = TypeError /\ self m' = bought gw xch_volume xch_price m)).
Proof.
  py_vocab. py_open m. intros H1 H2 H3.
  py_run in H1. py_run in H2. py_run in H3. py_run.
  rewrite H1, H2, H3.
  repeat match goal with
         | |- context [if ?c then _ else _] => destruct c eqn:?; py_run
         end;
    do 2 eexists; (split; [reflexivity|]); py_run;
    (split; [reflexivity|]); auto.
Qed.

Lemma buy_stock_cases xch_volume xch_price m :
  let o := buy_order gw xch_volume xch_price m in
  buy_stock xch_volume xch_price m = (Ok tt, m)
  \/ buy_stock xch_volume xch_price m
     = (Ok tt, with_readings (S (readings m)) m)
  \/ (o_accepted o = false
      /\ sell_only CONFIG (self m) = false
      /\ buy_stock xch_volume xch_price m
         = (Ok tt,
            with_orders (orders m ++ [o])
              (with_readings (S (S (S (readings m)))) m)))
  \/ (o_accepted o = true
      /\ sell_only CONFIG (self m) = false
      /\ exists e m',
          buy_stock xch_volume xch_price m = (Raise e, m')
          /\ orders m' = orders m ++ [o]
          /\ ((e = ZeroDivisionError
               /\ buy_count (self m') = buy_count (self m)
               /\ position_status (self m') = position_status (self m))
              \/ (e = TypeError
                  /\ self m' = bought gw xch_volume xch_price m))).
Proof.
  cbv zeta.
  destruct (sell_only CONFIG (self m)) eqn:H1.
  { left. apply buy_stock_skipped, H1. }
  destruct (is_zero (ask_of gw m)) eqn:H2.
  { right. left. apply buy_stock_no_price; assumption. }
  destruct (o_accepted (buy_order gw xch_volume xch_price m)) eqn:H3.
  - right. right. right. split; [reflexivity|]. split; [reflexivity|].
    apply buy_stock_accepted_cases; assumption.
  - right. right. left. split; [reflexivity|]. split; [reflexivity|].
    apply buy_stock_rejected; assumption.
Qed.

Lemma sell_stock_cases xch_price liquid m :
  let bid := bid_of gw m in
  let o := liquidation gw bid xch_price m in
  sell_stock xch_price liquid m = (Ok tt, quoted bid m)
  \/ sell_stock xch_price liquid m = (Raise ZeroDivisionError, quoted bid m)
  \/ sell_stock xch_price liquid m = (Ok tt, evaluated bid xch_price m)
  \/ sell_stock xch_price liquid m
     = (if o_accepted o then Raise TypeError else Ok tt,
        ordered o (evaluated bid xch_price m)).
Proof.
  cbv zeta.
  destruct (is_zero (bid_of gw m)) eqn:Hb.
  { left. apply sell_stock_no_price, Hb. }
  destruct (is_zero xch_price || is_zero (total_cost (self m))) eqn:Hz.
  { right. left. apply sell_stock_zero_division; assumption. }
  apply orb_false_elim in Hz as [Hx Hc].
  destruct (sell_wanted gw CONFIG liquid xch_price m) eqn:Hw.
  2:{ right. right. left. apply sell_stock_below; assumption. }
  right. right. right.
  destruct (o_accepted (liquidation gw (bid_of gw m) xch_price m)) eqn:Ho.
  - apply sell_stock_accepted; assumption.
  - apply sell_stock_rejected; assumption.
Qed.

Lemma handle_price_drop_cases xch_price m :
  let ask := ask_of gw m in
  let o := liquidation gw ask xch_price m in
  let m1 := evaluated ask xch_price m in
  handle_price_drop xch_price m = (Ok tt, quoted ask m)
  \/ handle_price_drop xch_price m = (Raise ZeroDivisionError, quoted ask m)
  \/ (exists e, handle_price_drop xch_price m = (Raise e, m1))
  \/ (stock_trader.stop_loss CONFIG (self m1) = true
      /\ handle_price_drop xch_price m
         = (if o_accepted o then Raise TypeError else Ok tt, ordered o m1))
  \/ (stock_trader.stop_loss CONFIG (self m1) = false
      /\ (exists d, dca_wanted CONFIG d (self m) = true)
      /\ handle_price_drop xch_price m
         = buy_stock (BUY_PERCENTAGE CONFIG * INVESTED_XCH CONFIG)%float
             xch_price m1)
  \/ (stock_trader.stop_loss CONFIG (self m1) = false
      /\ handle_price_drop xch_price m = (Ok tt, m1)).
Proof.
  cbv zeta.
  destruct (is_zero (ask_of gw m)) eqn:Hb.
  { left. apply handle_price_drop_no_price, Hb. }
  destruct (is_zero xch_price || is_zero (total_cost (self m))) eqn:Hz.
  { right. left. apply handle_price_drop_zero_division; assumption. }
  apply orb_false_elim in Hz as [Hx Hc].
  destruct (drop_of gw xch_price m) as [d|e] eqn:Hd.
  2:{ right. right. left. exists e.
      apply handle_price_drop_no_drop; assumption. }
  destruct (stock_trader.stop_loss CONFIG
              (self (evaluated (ask_of gw m) xch_price m))) eqn:Hstop.
  { right. right. right. left. split; [reflexivity|].
    apply (handle_price_drop_stop_loss gw CONFIG xch_price m d);
      assumption. }
  destruct (dca_wanted CONFIG d (self m)) eqn:Hdca.
  - right. right. right. right. left. split; [reflexivity|].
    split; [eauto|].
    apply (handle_price_drop_dca gw CONFIG xch_price m d); assumption.
  - right. right. right. right. right. split; [reflexivity|].
    apply (handle_price_drop_idle gw CONFIG xch_price m d); assumption.
Qed.

(** ** Orders *)

(** The funding amount of the buy order an operation may send: the
    argument of [buy_stock], or the configured increment of a
    repurchase. *)
Definition funding (op : operation) : float :=
  match op with
  | Buy xch_volume => xch_volume
  | _ => (BUY_PERCENTAGE CONFIG * INVESTED_XCH CONFIG)%float
  end.

Definition is_buy_order (op : operation) (s : StockTrader) (o : Order)
  : Prop :=
  o_address o = STOCKS (stock s) buy_addr
  /\ o_wallet_id o = 1
  /\ o_offer o = funding op.

Definition is_sell_order (s : StockTrader) (o : Order) : Prop :=
  o_address o = STOCKS (stock s) sell_addr
  /\ o_wallet_id o = wallet_id s
  /\ o_offer o = volume s.

(** X4.  An operation sends at most one order.  A buy order goes to the
    buy address of the symbol, draws on wallet 1 and offers the funding
    amount; a sell order goes to the sell address, draws on the wallet of
    the position and offers the whole holdings.  [buy_stock] sends no sell
    order and [sell_stock] no buy order. *)
Theorem one_order_per_operation (op : operation) (xch_price : float)
    (m : Machine) :
  let m' := snd (run gw CONFIG op xch_price m) in
  orders m' = orders m
  \/ (exists o,
        orders m' = orders m ++ [o]
        /\ is_buy_order op (self m) o
        /\ (forall liquid, op <> Sell liquid))
  \/ (exists o,
        orders m' = orders m ++ [o]
        /\ is_sell_order (self m) o
        /\ (forall xch_volume, op <> Buy xch_volume)).
Proof.
  cbv zeta. destruct op as [xch_volume | liquid | ]; cbn [run].
  - destruct (buy_stock_cases xch_volume xch_price m)
      as [-> | [-> | [(_ & _ & ->) | (_ & _ & e & m' & -> & Ho & _)]]];
      [left; reflexivity | left; reflexivity | |];
      right; left; eexists; (split; [first [exact Ho | reflexivity]|]);
      (split; [repeat split | discriminate]).
  - destruct (sell_stock_cases xch_price liquid m)
      as [-> | [-> | [-> | ->]]];
      [left; reflexivity | left; reflexivity | left; reflexivity |].
    right. right. eexists. split; [reflexivity|].
    split; [repeat split | discriminate].
  - destruct (handle_price_drop_cases xch_price m)
      as [-> | [-> | [(e & ->) | [(_ & ->) | [(_ & _ & ->) | (_ & ->)]]]]];
      [left; reflexivity | left; reflexivity | left; reflexivity | | |
       left; reflexivity].
    + right. right. eexists. split; [reflexivity|].
      split; [repeat split | discriminate].
    + destruct (buy_stock_cases
                  (BUY_PERCENTAGE CONFIG * INVESTED_XCH CONFIG)%float
                  xch_price (evaluated (ask_of gw m) xch_price m))
        as [-> | [-> | [(_ & _ & ->) | (_ & _ & e & m' & -> & Ho & _)]]];
        [left; reflexivity | left; reflexivity | |];
        right; left; eexists;
        (split; [first [exact Ho | reflexivity]|]);
        (split; [repeat split | discriminate]).
Qed.

(** X5.  A symbol of [SELL_ONLY_SYMBOLS] is never bought: [buy_stock]
    returns at once, without a quote lookup, and no operation on the
    position sends an order to the buy address. *)
Theorem sell_only_never_buys (op : operation) (xch_price : float)
    (m : Machine) :
  sell_only CONFIG (self m) = true ->
  (forall xch_volume,
      op = Buy xch_volume -> run gw CONFIG op xch_price m = (Ok tt, m))
  /\ (forall o,
        o ∈ orders (snd (run gw CONFIG op xch_price m)) ->
        o ∈ orders m \/ o_address o = STOCKS (stock (self m)) sell_addr).
Proof.
  intros Hso. split.
  - intros xch_volume ->. apply buy_stock_skipped, Hso.
  - intros o. destruct op as [xch_volume | liquid | ]; cbn [run].
    + rewrite (buy_stock_skipped gw CONFIG _ _ _ Hso). auto.
    + destruct (sell_stock_cases xch_price liquid m)
        as [-> | [-> | [-> | ->]]]; py_orders; auto.
      intros Ho. apply elem_of_app in Ho as [Ho | Ho]; [auto|].
      apply list_elem_of_singleton in Ho as ->. right. reflexivity.
    + destruct (handle_price_drop_cases xch_price m)
        as [-> | [-> | [(e & ->) | [(_ & ->) | [(_ & _ & ->) | (_ & ->)]]]]];
        py_orders; auto.
      * intros Ho. apply elem_of_app in Ho as [Ho | Ho]; [auto|].
        apply list_elem_of_singleton in Ho as ->. right. reflexivity.
      * rewrite buy_stock_skipped; [py_orders; auto|].
        unfold sell_only in *. exact Hso.
Qed.

(** ** The buy count *)

(** X6.  An operation leaves the buy count as it is or raises it by one;
    [sell_stock] leaves it as it is, and so does the stop-loss sale: no
    operation lowers or resets it.  [handle_price_drop] never takes it
    past [MAX_BUY_TIMES]. *)
Theorem buy_count_steps (op : operation) (xch_price : float) (m : Machine) :
  let n := buy_count (self m) in
  let n' := buy_count (self (snd (run gw CONFIG op xch_price m))) in
  (n' = n \/ n' = n + 1)
  /\ (forall liquid, op = Sell liquid -> n' = n)
  /\ (op = Drawdown -> n <= MAX_BUY_TIMES CONFIG ->
      n' <= MAX_BUY_TIMES CONFIG).
Proof.
  cbv zeta.
  assert (Hbuy : forall xch_volume m0,
             let n' := buy_count (self (snd (buy_stock xch_volume xch_price
                                               m0))) in
             n' = buy_count (self m0) \/ n' = buy_count (self m0) + 1).
  { intros xch_volume m0. cbv zeta.
    destruct (buy_stock_cases xch_volume xch_price m0)
      as [-> | [-> | [(_ & _ & ->)
                     | (_ & _ & e & m' & -> & _
                        & [(_ & Hn & _) | (_ & Hs)])]]];
      py_orders; auto.
    right. rewrite Hs. reflexivity. }
  destruct op as [xch_volume | liquid | ]; cbn [run].
  - split; [apply Hbuy|]. split; discriminate.
  - assert (Hn : buy_count (self (snd (sell_stock xch_price liquid m)))
                 = buy_count (self m)).
    { destruct (sell_stock_cases xch_price liquid m)
        as [-> | [-> | [-> | ->]]]; reflexivity. }
    split; [left; exact Hn|]. split; [intros; exact Hn | discriminate].
  - assert (Hsame : forall r m',
               handle_price_drop xch_price m = (r, m') ->
               buy_count (self m') = buy_count (self m) ->
               let n' := buy_count
                           (self (snd (handle_price_drop xch_price m))) in
               (n' = buy_count (self m) \/ n' = buy_count (self m) + 1)
               /\ (forall liquid, Drawdown = Sell liquid ->
                   n' = buy_count (self m))
               /\ (Drawdown = Drawdown ->
                   buy_count (self m) <= MAX_BUY_TIMES CONFIG ->
                   n' <= MAX_BUY_TIMES CONFIG)).
    { intros r m' -> Hn. cbn [snd]. rewrite Hn.
      split; [left; reflexivity|]. split; [discriminate|]. auto. }
    destruct (handle_price_drop_cases xch_price m)
      as [H | [H | [(e & H) | [(_ & H) | [(_ & (d & Hd) & H) | (_ & H)]]]]];
      try (apply (Hsame _ _ H); reflexivity).
    rewrite H.
    pose proof (Hbuy (BUY_PERCENTAGE CONFIG * INVESTED_XCH CONFIG)%float
                  (evaluated (ask_of gw m) xch_price m)) as Hstep.
    cbv zeta in Hstep.
    change (buy_count (self (evaluated (ask_of gw m) xch_price m)))
      with (buy_count (self m)) in Hstep.
    split; [exact Hstep|]. split; [discriminate|].
    intros _ Hle. unfold dca_wanted in Hd.
    apply andb_prop in Hd as [_ Hlt]. apply Z.ltb_lt in Hlt.
    destruct Hstep as [-> | ->]; lia.
Qed.

(** X7.  A position whose buy count is above [MAX_BUY_TIMES] gets no
    order from [handle_price_drop]: the stop-loss wants the count equal to
    the maximum and the repurchase wants it below. *)
Theorem count_past_maximum_never_trades (xch_price : float) (m : Machine) :
  MAX_BUY_TIMES CONFIG < buy_count (self m) ->
  orders (snd (handle_price_drop xch_price m)) = orders m
  /\ holding (self (snd (handle_price_drop xch_price m)))
     = holding (self m).
Proof.
  intros Hmax.
  destruct (handle_price_drop_cases xch_price m)
    as [-> | [-> | [(e & ->) | [(Hstop & _) | [(_ & (d & Hd) & _)
                                               | (_ & ->)]]]]];
    try (py_orders; split; reflexivity).
  - exfalso. unfold stock_trader.stop_loss in Hstop.
    apply andb_prop in Hstop as [Heq _]. apply Z.eqb_eq in Heq.
    unfold evaluated, with_self, set_profit, set_current_price in Heq.
    cbn [self buy_count] in Heq. lia.
  - exfalso. unfold dca_wanted in Hd.
    apply andb_prop in Hd as [_ Hlt]. apply Z.ltb_lt in Hlt. lia.
Qed.

(** X8.  A buy that was counted was booked in full: the holdings grew by
    the quantity ordered and are not zero, the total cost grew by the
    funding amount, the average price is the total cost divided by the
    holdings, the last buy price and the current price are the ask, and
    the status is PENDING_BUY. *)
Theorem counted_buy_is_booked (xch_volume xch_price : float) (m : Machine) :
  let s := self m in
  let s' := self (snd (buy_stock xch_volume xch_price m)) in
  buy_count s' = buy_count s + 1 ->
  volume s' = (volume s + xch_volume * xch_price / ask_of gw m)%float
  /\ is_zero (volume s') = false
  /\ total_cost s' = (total_cost s + xch_volume)%float
  /\ avg_price s' = (total_cost s' / volume s')%float
  /\ last_buy_price s' = ask_of gw m
  /\ current_price s' = ask_of gw m
  /\ position_status s' = PENDING_BUY.
Proof.
  cbv zeta.
  destruct (buy_stock_paths gw CONFIG xch_volume xch_price m)
    as (r & m0 & Hrun & _ & _ & _ & _ & Hpath).
  destruct (buy_stock_cases xch_volume xch_price m)
    as [H | [H | [(_ & _ & H)
                 | (_ & _ & e & m' & H & _ & [(_ & Hn & _) | (He & Hs)])]]];
    rewrite H in *; py_orders; try lia.
  intros _. injection Hrun as <- <-.
  destruct Hpath as [(Hr & _) | (_ & _ & _ & [Hr | (_ & Hv)])];
    try congruence.
  rewrite Hs in *. unfold bought in *. cbv zeta in *.
  cbn [volume total_cost avg_price last_buy_price current_price
       position_status] in *.
  repeat split. exact Hv.
Qed.

(** ** The ledger *)

(** The ids of the ledger are distinct and none is above the counter of
    the table. *)
Definition ledger_ok (m : Machine) : Prop :=
  NoDup (map tr_id (trades m))
  /\ Forall (fun r => tr_id r <= trades_seq m) (trades m).

(** Five values that the [trades] table keeps as they are given: a symbol
    and an action that are strings, a price and a profit that are floats,
    neither NaN nor the negative zero, and a quantity that is an integer
    of 64 bits. *)
Definition kept_as_given (args : list pyval) : Prop :=
  exists (symbol action : string) (price : float) (quantity : Z)
         (profit_ : float),
    args = [PyStr symbol; PyStr action; PyFloat price; PyInt quantity;
            PyFloat profit_]
    /\ sql_real price = Some price
    /\ int64 quantity = true
    /\ sql_real profit_ = Some profit_.

(** X9.  [record_trade], given five values that the table keeps as they
    are, adds exactly one row: it holds the five values and the time, and
    its id is above every id in the ledger, so that the ids stay distinct;
    the rows already there stay as they are, in their order. *)
Theorem record_trade_appends (args : list pyval) (m : Machine) :
  kept_as_given args ->
  ledger_ok m ->
  exists a1 a2 a3 a4 a5 m',
    args = [a1; a2; a3; a4; a5]
    /\ db.record_trade gw args m = (Ok tt, m')
    /\ trades m' =
         trades m ++
         [mkTrade (trades_seq m + 1) a1 a2 a3 a4 a5
            (datetime_now gw (readings m))]
    /\ Forall (fun r => tr_id r < trades_seq m + 1) (trades m)
    /\ ledger_ok m'.
Proof.
  intros (symbol & action & price & quantity & profit_ & -> & _)
         [Hnd Hle].
  exists (PyStr symbol), (PyStr action), (PyFloat price), (PyInt quantity),
    (PyFloat profit_).
  unfold ledger_ok. py_open m. cbn [trades trades_seq] in Hnd, Hle.
  eexists. split; [reflexivity|].
  py_run. split; [reflexivity|]. split; [reflexivity|].
  split; [|split].
  - eapply Forall_impl; [exact Hle|]. cbn. intros. lia.
  - rewrite map_app. cbn [map tr_id]. apply NoDup_app.
    split; [exact Hnd|]. split; [|apply NoDup_singleton].
    intros id Hid Hin. apply list_elem_of_singleton in Hin as ->.
    apply list_elem_of_fmap in Hid as (r & Hr & Hrin).
    rewrite Forall_forall in Hle. specialize (Hle r Hrin). lia.
  - apply Forall_app. split.
    + eapply Forall_impl; [exact Hle|]. cbn. intros. lia.
    + apply Forall_singleton. cbn. lia.
Qed.

(** ** The loop body outside trading *)

Lemma positive_not_zero (x : float) :
  PrimFloat.ltb 0 x = true -> is_zero x = false.
Proof.
  unfold is_zero. rewrite FloatAxioms.ltb_spec, FloatAxioms.eqb_spec.
  change (Prim2SF 0) with (S754_zero false).
  destruct (Prim2SF x) as [sg | sg | | sg mant e]; cbn;
    try discriminate; try reflexivity.
  all: destruct sg; cbn; try discriminate; reflexivity.
Qed.

(** X10.  A position that is not TRADABLE, or that is looked at outside
    market hours, is only requoted: the loop body sends no order, writes
    nothing, and changes no field but [current_price], which becomes the
    ask, and [profit].  At the zero sentinel it takes the [continue]; it
    divides by the total cost only when that is above zero, so that it
    fails only at a reference price of zero. *)
Theorem idle_position_is_requoted (xch_price : float) (m : Machine) :
  status_eqb (position_status (self m)) TRADABLE
  && is_market_open gw (readings m) = false ->
  let m0 := if status_eqb (position_status (self m)) TRADABLE
            then with_readings (S (readings m)) m else m in
  let ask := ask_of gw m0 in
  let out := evaluate xch_price m in
  orders (snd out) = orders m
  /\ trades (snd out) = trades m
  /\ positions (snd out) = positions m
  /\ holding (self (snd out)) = holding (self m)
  /\ current_price (self (snd out)) = ask
  /\ (is_zero ask = true -> fst out = Ok false)
  /\ (is_zero ask = false -> is_zero xch_price = false ->
      fst out = Ok true)
  /\ (is_zero ask = false ->
      PrimFloat.ltb 0 (total_cost (self m)) = false ->
      fst out = Ok true /\ profit (self (snd out)) = profit (self m)).
Proof.
  intros Hidle. cbv zeta. unfold ask_of. py_open m.
  cbn [self position_status readings] in Hidle.
  py_loop.
  destruct (status_eqb position_status0 TRADABLE); cbn [andb] in Hidle;
    py_loop; try rewrite Hidle; py_loop;
    ( destruct (is_zero _) eqn:Hask; py_loop;
      [ repeat split; intros; congruence |];
      destruct (PrimFloat.ltb 0 total_cost0) eqn:Hcost; py_loop;
      [ rewrite (positive_not_zero _ Hcost);
        destruct (is_zero xch_price) eqn:Hx; py_loop;
        repeat split; intros; congruence
      | repeat split; intros; congruence ] ).
Qed.

(** ** A turn of the loop *)

(** The value of a list of positions, added up from the left as the loop
    does. *)
Definition value_of (traders : list StockTrader) (start : float) : float :=
  fold_left (fun acc t => (acc + volume t * current_price t)%float)
    traders start.

Lemma report_and_persist_balance xch_price balance m r m' :
  stock_trader.report_and_persist gw xch_price balance m = (Ok r, m') ->
  r = (balance + volume (self m) * current_price (self m))%float.
Proof.
  py_loop. destruct (is_zero xch_price); [discriminate|].
  match goal with |- context [int64 ?z] => destruct (int64 z) end;
    [|discriminate].
  intros [= <- <-]. reflexivity.
Qed.

Lemma for_traders_sync traders :
  forall xch_price balance m ts total m',
    for_traders traders xch_price balance m = (Ok (ts, total), m') ->
    map stock ts = map stock traders
    /\ (forall k, k ∉ map stock traders ->
        positions m' !! k = positions m !! k)
    /\ (no_sentinel gw -> total = value_of ts balance)
    /\ (no_sentinel gw -> NoDup (map stock traders) ->
        forall t, t ∈ ts ->
          exists stamp,
            positions m' !! stock t = Some (db.position_row t stamp)).
Proof.
  induction traders as [|t rest IH]; intros xch_price balance m ts total m'.
  - cbn [stock_trader.for_traders]. py_outer. intros [= <- <- <-].
    repeat split; auto. intros _ _ t Ht. inversion Ht.
  - cbn [stock_trader.for_traders]. py_outer.
    match goal with
    | |- context [stock_trader.evaluate gw CONFIG ?a ?M] =>
        destruct (evaluate_frame gw CONFIG a M)
          as (re & me & Hrun & _ & Hpos & Hs & Hskip);
        rewrite Hrun; clear Hrun
    end.
    cbn [self positions] in Hpos, Hs, Hskip.
    destruct re as [go_on|e]; [|discriminate].
    destruct go_on.
    + destruct (stock_trader.report_and_persist gw xch_price balance me)
        as [[b|e] mp] eqn:Hp; [|discriminate].
      pose proof (report_and_persist_balance _ _ _ _ _ Hp) as Hb.
      apply report_and_persist_ok in Hp as (_ & Hpp & Hsp).
      py_outer.
      destruct (for_traders rest xch_price b mp)
        as [[[ts1 total1]|e] m1] eqn:Hrest; [|discriminate].
      intros [= <- <- <-].
      destruct (IH _ _ _ _ _ _ Hrest) as (Hmap & Hframe & Hval & Hsync).
      cbn [fst snd]. rewrite Hsp in *.
      split; [|split; [|split]].
      * cbn [map]. rewrite Hs, Hmap. reflexivity.
      * intros k Hk. cbn [map] in Hk.
        apply not_elem_of_cons in Hk as [Hne Hk].
        rewrite (Hframe k Hk), Hpp, Hpos.
        apply lookup_insert_ne. congruence.
      * intros Hno. unfold value_of. cbn [fold_left].
        rewrite (Hval Hno), Hb. reflexivity.
      * intros Hno Hnd t0 Ht0. cbn [map] in Hnd.
        apply NoDup_cons in Hnd as [Hfresh Hnd].
        apply elem_of_cons in Ht0 as [-> | Ht0];
          [|exact (Hsync Hno Hnd t0 Ht0)].
        rewrite <- Hs in Hfresh. rewrite (Hframe _ Hfresh), Hpp.
        rewrite lookup_insert_eq. eauto.
    + py_outer.
      destruct (for_traders rest xch_price balance me)
        as [[[ts1 total1]|e] m1] eqn:Hrest; [|discriminate].
      intros [= <- <- <-].
      destruct (IH _ _ _ _ _ _ Hrest) as (Hmap & Hframe & Hval & Hsync).
      cbn [fst snd].
      assert (Hnever : no_sentinel gw -> False).
      { intros Hno. destruct (Hskip eq_refl) as [n Hn].
        rewrite (Hno n (stock t)) in Hn. discriminate. }
      split; [|split; [|split]].
      * cbn [map]. rewrite Hs, Hmap. reflexivity.
      * intros k Hk. cbn [map] in Hk.
        apply not_elem_of_cons in Hk as [Hne Hk].
        rewrite (Hframe k Hk), Hpos. reflexivity.
      * intros Hno. destruct (Hnever Hno).
      * intros Hno. destruct (Hnever Hno).
Qed.

(** X11.  A turn of the loop that completes hands back the traders it was
    given, symbol by symbol in the same order, and leaves the stored row
    of every symbol that is not among them as it was. *)
Theorem tick_keeps_the_traders (traders ts : list StockTrader)
    (total : float) (m m' : Machine) :
  tick traders m = (Ok (ts, total), m') ->
  map stock ts = map stock traders
  /\ (forall k, k ∉ map stock traders ->
      positions m' !! k = positions m !! k).
Proof.
  py_outer.
  destruct (get_xch_price gw (readings m)) as [xch_price|].
  - intros Hrun.
    destruct (for_traders_sync _ _ _ _ _ _ _ Hrun) as (Hmap & Hframe & _).
    cbn [positions] in Hframe. auto.
  - intros [= <- <- <-]. auto.
Qed.

(** X12.  When the reference price is there and no quote lookup returns
    the zero sentinel, the balance of a turn that completes is the sum,
    taken from the left and starting at 0, of [volume * current_price]
    over the positions as the turn leaves them. *)
Theorem tick_balance (traders ts : list StockTrader) (total : float)
    (m m' : Machine) :
  tick traders m = (Ok (ts, total), m') ->
  get_xch_price gw (readings m) <> None ->
  no_sentinel gw ->
  total = value_of ts 0.
Proof.
  py_outer.
  destruct (get_xch_price gw (readings m)) as [xch_price|];
    [|congruence].
  intros Hrun _ Hno.
  destruct (for_traders_sync _ _ _ _ _ _ _ Hrun) as (_ & _ & Hval & _).
  exact (Hval Hno).
Qed.

(** X13.  When the reference price is there, no quote lookup returns the
    zero sentinel and the traders have distinct symbols, a turn that
    completes leaves the store in step with the traders: the row of each
    symbol holds the fields of its trader as the turn leaves it. *)
Theorem tick_stores_every_position (traders ts : list StockTrader)
    (total : float) (m m' : Machine) :
  tick traders m = (Ok (ts, total), m') ->
  get_xch_price gw (readings m) <> None ->
  no_sentinel gw ->
  NoDup (map stock traders) ->
  forall t, t ∈ ts ->
    exists stamp, positions m' !! stock t = Some (db.position_row t stamp).
Proof.
  py_outer.
  destruct (get_xch_price gw (readings m)) as [xch_price|];
    [|congruence].
  intros Hrun _ Hno Hnd.
  destruct (for_traders_sync _ _ _ _ _ _ _ Hrun) as (_ & _ & _ & Hsync).
  exact (Hsync Hno Hnd).
Qed.

(** The outcome of the loop body when the operation it called is done. *)
Definition and_go_on (out : res unit * Machine) : res bool * Machine :=
  match out with
  | (Ok _, m) => (Ok true, m)
  | (Raise e, m) => (Raise e, m)
  end.

(** X14.  In market hours a TRADABLE position with no holdings is handed
    to [buy_stock] with the configured increment, whatever its buy count;
    one whose holdings are neither zero nor above zero (negative, or not a
    number) is passed over: nothing is fetched or sent, no field changes,
    and the position goes on to be persisted. *)
Theorem tradable_position_dispatch (xch_price : float) (m : Machine) :
  position_status (self m) = TRADABLE ->
  is_market_open gw (readings m) = true ->
  let m1 := with_readings (S (readings m)) m in
  (is_zero (volume (self m)) = true ->
   evaluate xch_price m
   = and_go_on
       (buy_stock (BUY_PERCENTAGE CONFIG * INVESTED_XCH CONFIG)%float
          xch_price m1))
  /\ (is_zero (volume (self m)) = false ->
      PrimFloat.ltb 0 (volume (self m)) = false ->
      evaluate xch_price m = (Ok true, m1)).
Proof.
  py_open m. cbn [self position_status readings volume].
  intros -> Hopen. cbv zeta. unfold with_readings, and_go_on.
  cbn [self trades trades_seq positions journal orders].
  split.
  - intros Hz. py_loop. cbn [status_eqb]. py_loop.
    rewrite Hopen. py_loop. rewrite Hz. py_loop.
    match goal with
    | |- context [stock_trader.buy_stock gw CONFIG ?a ?b ?M] =>
        destruct (stock_trader.buy_stock gw CONFIG a b M) as [[u|e] m2]
    end; reflexivity.
  - intros Hz Hpos. py_loop. cbn [status_eqb]. py_loop.
    rewrite Hopen. py_loop. rewrite Hz, Hpos. py_loop. reflexivity.
Qed.

(** X15.  For a position whose buy count fits 64 bits,
    [create_position] stores the row of a symbol that has none, and
    [get_position] then returns that row: the position's fields as the
    table keeps them and the position's own time; called again for the
    symbol it fails with [IntegrityError] and leaves the store as it is,
    where [update_position] replaces the row.  With a buy count that does
    not fit, both fail with [OverflowError] and store nothing. *)
Theorem create_position_once (t : StockTrader) (m : Machine) :
  positions m !! stock t = None ->
  (int64 (buy_count t) = true ->
   exists m',
     db.create_position t m = (Ok tt, m')
     /\ db.get_position (stock t) m'
        = (Ok (Some (db.position_row t (last_updated t))), m')
     /\ db.create_position t m' = (Raise IntegrityError, m')
     /\ fst (db.update_position gw t m') = Ok tt
     /\ (forall k, k <> stock t -> positions m' !! k = positions m !! k))
  /\ (int64 (buy_count t) = false ->
      db.create_position t m = (Raise OverflowError, m)
      /\ fst (db.update_position gw t m) = Raise OverflowError
      /\ positions (snd (db.update_position gw t m)) = positions m).
Proof.
  intros Hnone. split; intros Hfit.
  - unfold db.create_position, db.get_position, bind, get, modify, raise.
    rewrite Hfit, Hnone. eexists. split; [reflexivity|].
    rewrite (update_position_writes gw t _ Hfit).
    cbn [positions stock]. rewrite lookup_insert_eq.
    repeat split. intros k Hk. apply lookup_insert_ne. congruence.
  - rewrite (update_position_overflow gw t m Hfit).
    unfold db.create_position. rewrite Hfit. repeat split.
Qed.

End Coverage.

(** ** Instances *)

Module Cases.

(** The configuration of the scenarios with AAPL on the sell-only list. *)
Definition sell_only_config : Config :=
  mkConfig ["AAPL"%string] (TRADING_SYMBOLS Scenario.config)
    (MIN_PROFIT Scenario.config) (MAX_BUY_TIMES Scenario.config)
    (MAX_LOSS_PERCENTAGE Scenario.config) (DCA_PERCENTAGE Scenario.config)
    (BUY_PERCENTAGE Scenario.config) (INVESTED_XCH Scenario.config).

(** A position bought four times, one more than the maximum. *)
Definition overbought : StockTrader :=
  mkTrader "AAPL" 20%float 4 50%float 10%float 0.5%float 40%float 0%float
    TRADABLE 0 2.

(** A position whose holdings are below zero. *)
Definition short : StockTrader :=
  mkTrader "AAPL" (-1)%float 1 50%float 10%float 0.5%float 40%float 0%float
    TRADABLE 0 2.

Definition open_market : Gateway :=
  Scenario.market 40 40 true (Some 100%float).

(** A position whose profit is the negative zero. *)
Definition break_even : StockTrader :=
  mkTrader "AAPL" 20%float 1 50%float 10%float 0.5%float 50%float
    (- 0)%float TRADABLE 0 2.

End Cases.

Lemma sell_only_never_buys_witness :
  let m := Scenario.machine Scenario.held [Scenario.funded_row] in
  (forall xch_volume,
      Drawdown = Buy xch_volume ->
      run Cases.open_market Cases.sell_only_config Drawdown 100 m
      = (Ok tt, m))
  /\ (forall o,
        o ∈ orders (snd (run Cases.open_market Cases.sell_only_config
                           Drawdown 100 m)) ->
        o ∈ orders m \/ o_address o = STOCKS (stock (self m)) sell_addr).
Proof.
  apply (sell_only_never_buys Cases.open_market Cases.sell_only_config
           Drawdown 100
           (Scenario.machine Scenario.held [Scenario.funded_row])).
  reflexivity.
Defined.

Lemma count_past_maximum_never_trades_witness :
  let m := Scenario.machine Cases.overbought [Scenario.funded_row] in
  let out := stock_trader.handle_price_drop Cases.open_market
               Scenario.config 100 m in
  orders (snd out) = orders m
  /\ holding (self (snd out)) = holding (self m).
Proof.
  apply (count_past_maximum_never_trades Cases.open_market Scenario.config
           100 (Scenario.machine Cases.overbought [Scenario.funded_row])).
  reflexivity.
Defined.

Lemma counted_buy_is_booked_witness :
  let gw := Scenario.market 50 50 true (Some 100%float) in
  let m := Scenario.machine Scenario.flat [] in
  let s := self m in
  let s' := self (snd (stock_trader.buy_stock gw Scenario.config 10 100 m)) in
  volume s' = (volume s + 10 * 100 / ask_of gw m)%float
  /\ is_zero (volume s') = false
  /\ total_cost s' = (total_cost s + 10)%float
  /\ avg_price s' = (total_cost s' / volume s')%float
  /\ last_buy_price s' = ask_of gw m
  /\ current_price s' = ask_of gw m
  /\ position_status s' = PENDING_BUY.
Proof.
  apply (counted_buy_is_booked (Scenario.market 50 50 true (Some 100%float))
           Scenario.config 10 100 (Scenario.machine Scenario.flat [])).
  reflexivity.
Defined.

Lemma record_trade_appends_witness :
  let m := Scenario.machine Scenario.held [Scenario.funded_row] in
  let args := [PyStr "AAPL"; PyStr "SELL"; PyFloat 60; PyInt 20;
               PyFloat 0.25] in
  exists a1 a2 a3 a4 a5 m',
    args = [a1; a2; a3; a4; a5]
    /\ db.record_trade Cases.open_market args m = (Ok tt, m')
    /\ trades m' =
         trades m ++
         [mkTrade (trades_seq m + 1) a1 a2 a3 a4 a5
            (datetime_now Cases.open_market (readings m))]
    /\ Forall (fun r => tr_id r < trades_seq m + 1) (trades m)
    /\ ledger_ok m'.
Proof.
  apply (record_trade_appends Cases.open_market
           [PyStr "AAPL"; PyStr "SELL"; PyFloat 60; PyInt 20; PyFloat 0.25]
           (Scenario.machine Scenario.held [Scenario.funded_row])).
  - exists "AAPL"%string, "SELL"%string, 60%float, 20, 0.25%float.
    repeat split.
  - split.
    + apply NoDup_singleton.
    + apply Forall_singleton. vm_compute. discriminate.
Defined.

Lemma idle_position_is_requoted_witness :
  let gw := Cases.open_market in
  let m := Scenario.machine Scenario.pending [] in
  let out := stock_trader.evaluate gw Scenario.config 100 m in
  orders (snd out) = orders m
  /\ trades (snd out) = trades m
  /\ positions (snd out) = positions m
  /\ holding (self (snd out)) = holding (self m)
  /\ current_price (self (snd out)) = ask_of gw m
  /\ (is_zero (ask_of gw m) = true -> fst out = Ok false)
  /\ (is_zero (ask_of gw m) = false -> is_zero 100 = false ->
      fst out = Ok true)
  /\ (is_zero (ask_of gw m) = false ->
      PrimFloat.ltb 0 (total_cost (self m)) = false ->
      fst out = Ok true /\ profit (self (snd out)) = profit (self m)).
Proof.
  apply (idle_position_is_requoted Cases.open_market Scenario.config 100
           (Scenario.machine Scenario.pending [])).
  reflexivity.
Defined.

Lemma tick_keeps_the_traders_witness :
  let m := Scenario.machine Scenario.pending [] in
  exists ts total m',
    stock_trader.tick Cases.open_market Scenario.config [Scenario.pending] m
    = (Ok (ts, total), m')
    /\ map stock ts = map stock [Scenario.pending]
    /\ (forall k, k ∉ map stock [Scenario.pending] ->
        positions m' !! k = positions m !! k).
Proof.
  cbv zeta. do 3 eexists. split; [vm_compute; reflexivity|].
  eapply (tick_keeps_the_traders Cases.open_market Scenario.config
            [Scenario.pending] _ _ (Scenario.machine Scenario.pending [])).
  vm_compute. reflexivity.
Defined.

Lemma tick_balance_witness :
  let m := Scenario.machine Scenario.pending [] in
  exists ts total m',
    stock_trader.tick Cases.open_market Scenario.config [Scenario.pending] m
    = (Ok (ts, total), m')
    /\ total = value_of ts 0.
Proof.
  cbv zeta. do 3 eexists. split; [vm_compute; reflexivity|].
  eapply (tick_balance Cases.open_market Scenario.config
            [Scenario.pending] _ _ (Scenario.machine Scenario.pending [])).
  - vm_compute. reflexivity.
  - discriminate.
  - intros n s. reflexivity.
Defined.

Lemma tick_stores_every_position_witness :
  let traders := [Scenario.pending; Portfolio.waiting] in
  let m := Scenario.machine Scenario.pending [] in
  exists ts total m',
    stock_trader.tick Cases.open_market Scenario.config traders m
    = (Ok (ts, total), m')
    /\ (forall t, t ∈ ts ->
        exists stamp,
          positions m' !! stock t = Some (db.position_row t stamp)).
Proof.
  cbv zeta. do 3 eexists. split; [vm_compute; reflexivity|].
  eapply (tick_stores_every_position Cases.open_market Scenario.config
            [Scenario.pending; Portfolio.waiting] _ _
            (Scenario.machine Scenario.pending [])).
  - vm_compute. reflexivity.
  - discriminate.
  - intros n s. reflexivity.
  - apply NoDup_cons. split; [|apply NoDup_singleton].
    intros H. apply list_elem_of_singleton in H. discriminate H.
Defined.

Lemma tradable_position_dispatch_witness :
  let gw := Cases.open_market in
  let m := Scenario.machine Cases.short [] in
  let m1 := with_readings (S (readings m)) m in
  (is_zero (volume (self m)) = true ->
   stock_trader.evaluate gw Scenario.config 100 m
   = and_go_on
       (stock_trader.buy_stock gw Scenario.config
          (BUY_PERCENTAGE Scenario.config * INVESTED_XCH Scenario.config)%float
          100 m1))
  /\ (is_zero (volume (self m)) = false ->
      PrimFloat.ltb 0 (volume (self m)) = false ->
      stock_trader.evaluate gw Scenario.config 100 m = (Ok true, m1)).
Proof.
  apply (tradable_position_dispatch Cases.open_market Scenario.config 100
           (Scenario.machine Cases.short [])); reflexivity.
Defined.

Lemma create_position_once_witness :
  let t := Scenario.held in
  let m := Scenario.machine Scenario.held [] in
  exists m',
    db.create_position t m = (Ok tt, m')
    /\ db.get_position (stock t) m'
       = (Ok (Some (db.position_row t (last_updated t))), m')
    /\ db.create_position t m' = (Raise IntegrityError, m')
    /\ fst (db.update_position Cases.open_market t m') = Ok tt
    /\ (forall k, k <> stock t -> positions m' !! k = positions m !! k).
Proof.
  apply (create_position_once Cases.open_market Scenario.held
           (Scenario.machine Scenario.held [])); reflexivity.
Defined.

Lemma persisted_position_reloads_witness :
  let gw := Cases.open_market in
  let t := Cases.break_even in
  let m := Scenario.machine Scenario.flat [] in
  let out := stock_trader.__init__ gw (stock t)
               (snd (db.update_position gw t m)) in
  fst (db.update_position gw t m) = Ok tt
  /\ fst out = Ok tt
  /\ self (snd out) =
       set_wallet_id (add_token gw (S (S (readings m))) (stock t))
         (set_last_updated (whole_seconds (datetime_now gw (readings m)))
            (reloaded t))
  /\ positions (snd out) = positions (snd (db.update_position gw t m))
  /\ journal (snd out) = journal (snd (db.update_position gw t m)).
Proof.
  apply (persisted_position_reloads Cases.open_market Cases.break_even
           (Scenario.machine Scenario.flat [])).
  - reflexivity.
  - repeat split.
Defined.
